(** * Geofence transition engine of the panic alert system

    A shallow embedding of [backend/shared/location.py] and of the request
    handlers of [backend/geofencing_service/router.py], followed by the
    properties of the specification that concern them.

    The handlers are embedded at two levels.  [Router] follows the attributes
    that [router.py] reads from its request bodies and from the rows of the
    store; the properties stated on it concern the queries, the checks and
    the decision of the handlers.  [Schemas] and [Endpoint] give the request
    bodies the fields that [schemas.py] declares: there the reads of
    [location_data.device_info] and of [geofence_data.latitude] raise
    [AttributeError], and the properties stated on [Endpoint] concern what a
    request answers, stores and publishes.

    Conventions of the embedding.
    - Python [float] values (coordinates, radii, distances) are idealised as
      real numbers: [math.sin], [math.cos], [math.asin] and [math.sqrt] are the
      functions of the same name of the real analysis library, and rounding
      is not modelled.
    - A [datetime] is an integer number of seconds; [timedelta(minutes=5)] is
      [300].
    - A UUID is an integer. *)

From Stdlib Require Import Reals Lra ZArith Lia List String Bool.
Import ListNotations.

(** ** backend/shared/location.py *)

Module Location.
Local Open Scope R_scope.

(** [math.radians] *)
Definition radians (x : R) : R := x * (PI / 180).

(** Comparison [x <= y] of two floats, as a boolean. *)
Definition Rleb (x y : R) : bool := if Rle_dec x y then true else false.

Definition earth_radius : R := 6371000.

Definition calculate_distance (lat1 lon1 lat2 lon2 : R) : R :=
  let lat1_rad := radians lat1 in
  let lon1_rad := radians lon1 in
  let lat2_rad := radians lat2 in
  let lon2_rad := radians lon2 in
  let dlat := lat2_rad - lat1_rad in
  let dlon := lon2_rad - lon1_rad in
  let a := sin (dlat / 2) ^ 2
           + cos lat1_rad * cos lat2_rad * sin (dlon / 2) ^ 2 in
  let c := 2 * asin (sqrt a) in
  let distance := earth_radius * c in
  distance.

Definition is_point_in_circle
    (point_lat point_lon center_lat center_lon radius_meters : R) : bool :=
  let distance :=
    calculate_distance point_lat point_lon center_lat center_lon in
  Rleb distance radius_meters.

End Location.

(** ** backend/geofencing_service/router.py

    The records carry the attributes that the handlers read and write.  The
    relational store is a pair of tables; a handler takes the store and the
    wall-clock time of the request and returns its HTTP response, the store
    after the request and the messages handed to [publish_geofence_event]. *)

Module Router.
Import Location.
Local Open Scope string_scope.
Local Open Scope list_scope.
Local Open Scope Z_scope.

Definition UUID := Z.
Definition datetime := Z.

(** [timedelta(minutes=m)], in seconds *)
Definition timedelta_minutes (m : Z) : Z := 60 * m.

Inductive GeofenceType :=
| SAFE_ZONE | RESTRICTED_ZONE | WORK_ZONE | HOME_ZONE | SCHOOL_ZONE
| EMERGENCY_ZONE | CUSTOM.

Inductive EventType := ENTER | EXIT | DWELL | BREACH.

Definition GeofenceType_eqb (a b : GeofenceType) : bool :=
  match a, b with
  | SAFE_ZONE, SAFE_ZONE | RESTRICTED_ZONE, RESTRICTED_ZONE
  | WORK_ZONE, WORK_ZONE | HOME_ZONE, HOME_ZONE | SCHOOL_ZONE, SCHOOL_ZONE
  | EMERGENCY_ZONE, EMERGENCY_ZONE | CUSTOM, CUSTOM => true
  | _, _ => false
  end.

Definition EventType_eqb (a b : EventType) : bool :=
  match a, b with
  | ENTER, ENTER | EXIT, EXIT | DWELL, DWELL | BREACH, BREACH => true
  | _, _ => false
  end.

(** [EventType.value] *)
Definition EventType_value (t : EventType) : string :=
  match t with
  | ENTER => "enter" | EXIT => "exit" | DWELL => "dwell" | BREACH => "breach"
  end.

Module User.
Record t := { id : UUID; first_name : string; last_name : string }.
End User.

(** The dictionary returned by the reverse geocoder. *)
Definition LocationInfo := list (string * string).

Module Geofence.
Record Metadata :=
  { location_info : option LocationInfo; created_via : string }.
Record t :=
  { id : UUID;
    user_id : UUID;
    name : string;
    description : option string;
    geofence_type : GeofenceType;
    latitude : R;
    longitude : R;
    radius_meters : R;
    is_active : bool;
    notify_on_enter : bool;
    notify_on_exit : bool;
    (* declared by the model, never read by the handlers *)
    trigger_on_dwell : bool;
    dwell_time_minutes : Z;
    metadata : Metadata;
    created_at : datetime;
    updated_at : datetime }.
End Geofence.

Module GeofenceEvent.
Record Metadata :=
  { location_accuracy : option R;
    device_info : option string;
    geofence_name : string;
    geofence_type : GeofenceType }.
(* the primary key, drawn by [uuid4], is not read by these handlers *)
Record t :=
  { geofence_id : UUID;
    user_id : UUID;
    event_type : EventType;
    latitude : R;
    longitude : R;
    distance_meters : R;
    metadata : Metadata;
    (* server_default=func.now() *)
    created_at : datetime }.
End GeofenceEvent.

Module LocationUpdate.
Record t :=
  { latitude : R;
    longitude : R;
    accuracy : option R;
    device_info : option string;
    timestamp : option datetime }.
End LocationUpdate.

Module GeofenceCreate.
Record t :=
  { name : string;
    description : option string;
    geofence_type : GeofenceType;
    latitude : R;
    longitude : R;
    radius_meters : R;
    is_active : bool;
    notify_on_enter : bool;
    notify_on_exit : bool }.
End GeofenceCreate.

Module GeofenceUpdate.
Record t :=
  { name : option string;
    description : option string;
    latitude : option R;
    longitude : option R;
    radius_meters : option R;
    is_active : option bool;
    notify_on_enter : option bool;
    notify_on_exit : option bool }.
End GeofenceUpdate.

Module GeofenceResponse.
Record t :=
  { id : UUID;
    name : string;
    description : option string;
    geofence_type : GeofenceType;
    latitude : R;
    longitude : R;
    radius_meters : R;
    is_active : bool;
    notify_on_enter : bool;
    notify_on_exit : bool;
    created_at : datetime;
    updated_at : datetime;
    metadata : Geofence.Metadata }.
End GeofenceResponse.

Definition geofence_response (geofence : Geofence.t) : GeofenceResponse.t :=
  {| GeofenceResponse.id := Geofence.id geofence;
     GeofenceResponse.name := Geofence.name geofence;
     GeofenceResponse.description := Geofence.description geofence;
     GeofenceResponse.geofence_type := Geofence.geofence_type geofence;
     GeofenceResponse.latitude := Geofence.latitude geofence;
     GeofenceResponse.longitude := Geofence.longitude geofence;
     GeofenceResponse.radius_meters := Geofence.radius_meters geofence;
     GeofenceResponse.is_active := Geofence.is_active geofence;
     GeofenceResponse.notify_on_enter := Geofence.notify_on_enter geofence;
     GeofenceResponse.notify_on_exit := Geofence.notify_on_exit geofence;
     GeofenceResponse.created_at := Geofence.created_at geofence;
     GeofenceResponse.updated_at := Geofence.updated_at geofence;
     GeofenceResponse.metadata := Geofence.metadata geofence |}.

(** The two tables of the relational store. *)
Record Database :=
  { geofences : list Geofence.t;
    geofence_events : list GeofenceEvent.t }.

(** The dictionaries handed to [publish_geofence_event]. *)
Inductive Message :=
| geofence_created (geofence_id user_id : UUID) (geofence_name : string)
    (geofence_type : GeofenceType) (latitude longitude radius_meters : R)
    (is_active : bool) (timestamp : datetime)
| geofence_updated (geofence_id user_id : UUID)
    (updated_fields : GeofenceUpdate.t) (timestamp : datetime)
| geofence_deleted (geofence_id user_id : UUID) (geofence_name : string)
    (timestamp : datetime)
| geofence_transition (event_type : string) (geofence_id : UUID)
    (geofence_name : string) (geofence_type : GeofenceType) (user_id : UUID)
    (user_name : string) (latitude longitude distance_meters : R)
    (timestamp : datetime) (priority : string).

Inductive PyException :=
| HTTPException (status_code : Z) (detail : string)
| MultipleResultsFound.

Definition str (e : PyException) : string :=
  match e with
  | HTTPException _ detail => detail
  | MultipleResultsFound =>
      "Multiple rows were found when one or none was required"
  end.

Inductive Response (A : Type) :=
| Ok (status_code : Z) (body : A)
| Error (status_code : Z) (detail : string).
Arguments Ok {A} status_code body.
Arguments Error {A} status_code detail.

Record Outcome (A : Type) :=
  { response : Response A;
    db_after : Database;
    published : list Message }.
Arguments response {A} o.
Arguments db_after {A} o.
Arguments published {A} o.

(** [Result.scalar_one_or_none()]: the only row, [None] when there is no row,
    and [MultipleResultsFound] when there are several. *)
Definition scalar_one_or_none {A : Type} (rows : list A)
  : PyException + option A :=
  match rows with
  | [] => inr None
  | [row] => inr (Some row)
  | _ :: _ :: _ => inl MultipleResultsFound
  end.

(** *** The unit of work of one request

    [pending] holds the objects passed to [db.add], written by [db.commit]
    and dropped by [db.rollback]; [outbox] holds the messages already
    published, which a rollback does not take back.  Queries read the
    committed rows: the session factory is created with [autoflush=False]. *)

Record Session :=
  { pending : list GeofenceEvent.t;
    outbox : list Message }.

Definition Txn (A : Type) : Type := Session -> Session * (PyException + A).

Definition ret {A : Type} (a : A) : Txn A := fun s => (s, inr a).

Definition bind {A B : Type} (m : Txn A) (k : A -> Txn B) : Txn B :=
  fun s =>
    match m s with
    | (s', inr a) => k a s'
    | (s', inl e) => (s', inl e)
    end.

Notation "x <- m ;; k" := (bind m (fun x => k))
  (at level 61, m at next level, right associativity).
Notation "m ;;; k" := (bind m (fun _ => k))
  (at level 61, right associativity).

Definition lift {A : Type} (r : PyException + A) : Txn A := fun s => (s, r).

Definition db_add (geofence_event : GeofenceEvent.t) : Txn unit :=
  fun s =>
    ({| pending := pending s ++ [geofence_event]; outbox := outbox s |},
     inr tt).

Definition publish_geofence_event (message : Message) : Txn unit :=
  fun s =>
    ({| pending := pending s; outbox := outbox s ++ [message] |}, inr tt).

Fixpoint for_each {A : Type} (body : A -> Txn unit) (items : list A)
  : Txn unit :=
  match items with
  | [] => ret tt
  | item :: rest => body item ;;; for_each body rest
  end.

Definition empty_session : Session := {| pending := []; outbox := [] |}.

(** [db.commit()] *)
Definition commit (db : Database) (s : Session) : Database :=
  {| geofences := geofences db;
     geofence_events := geofence_events db ++ pending s |}.

(** *** update_location *)

(** [.order_by(GeofenceEvent.created_at.desc())] *)
Fixpoint insert_desc (e : GeofenceEvent.t) (l : list GeofenceEvent.t)
  : list GeofenceEvent.t :=
  match l with
  | [] => [e]
  | e' :: l' =>
      if GeofenceEvent.created_at e' <=? GeofenceEvent.created_at e
      then e :: e' :: l'
      else e' :: insert_desc e l'
  end.

Definition order_by_created_at_desc (l : list GeofenceEvent.t)
  : list GeofenceEvent.t :=
  fold_right insert_desc [] l.

(** The query for recent events of one geofence and one user. *)
Definition recent_events (now : datetime) (db : Database)
    (geofence : Geofence.t) (current_user : User.t)
  : list GeofenceEvent.t :=
  order_by_created_at_desc
    (filter
       (fun e =>
          (GeofenceEvent.geofence_id e =? Geofence.id geofence)
          && (GeofenceEvent.user_id e =? User.id current_user)
          && (now - timedelta_minutes 5 <=? GeofenceEvent.created_at e))
       (geofence_events db)).

(** "Determine if we need to create an event": [None] stands for
    [should_create_event = False]. *)
Definition decide_event (is_inside : bool) (geofence : Geofence.t)
    (recent_event : option GeofenceEvent.t) : option EventType :=
  if is_inside && Geofence.notify_on_enter geofence then
    match recent_event with
    | None => Some ENTER
    | Some recent =>
        if EventType_eqb (GeofenceEvent.event_type recent) EXIT
        then Some ENTER else None
    end
  else if negb is_inside && Geofence.notify_on_exit geofence then
    match recent_event with
    | Some recent =>
        if EventType_eqb (GeofenceEvent.event_type recent) ENTER
        then Some EXIT else None
    | None => None
    end
  else None.

Definition new_geofence_event (now : datetime) (current_user : User.t)
    (location_data : LocationUpdate.t) (geofence : Geofence.t)
    (event_type : EventType) (distance : R) : GeofenceEvent.t :=
  {| GeofenceEvent.geofence_id := Geofence.id geofence;
     GeofenceEvent.user_id := User.id current_user;
     GeofenceEvent.event_type := event_type;
     GeofenceEvent.latitude := LocationUpdate.latitude location_data;
     GeofenceEvent.longitude := LocationUpdate.longitude location_data;
     GeofenceEvent.distance_meters := distance;
     GeofenceEvent.metadata :=
       {| GeofenceEvent.location_accuracy :=
            LocationUpdate.accuracy location_data;
          GeofenceEvent.device_info :=
            LocationUpdate.device_info location_data;
          GeofenceEvent.geofence_name := Geofence.name geofence;
          GeofenceEvent.geofence_type := Geofence.geofence_type geofence |};
     GeofenceEvent.created_at := now |}.

Definition transition_message (now : datetime) (current_user : User.t)
    (location_data : LocationUpdate.t) (geofence : Geofence.t)
    (event_type : EventType) (distance : R) : Message :=
  geofence_transition
    ("geofence_" ++ EventType_value event_type)%string
    (Geofence.id geofence)
    (Geofence.name geofence)
    (Geofence.geofence_type geofence)
    (User.id current_user)
    (User.first_name current_user ++ " " ++ User.last_name current_user)%string
    (LocationUpdate.latitude location_data)
    (LocationUpdate.longitude location_data)
    distance
    now
    (if GeofenceType_eqb (Geofence.geofence_type geofence) SAFE_ZONE
     then "MEDIUM" else "HIGH").

(** The body of the loop over the user's active geofences. *)
Definition check_geofence (now : datetime) (current_user : User.t)
    (location_data : LocationUpdate.t) (db : Database)
    (geofence : Geofence.t) : Txn unit :=
  let distance :=
    calculate_distance
      (LocationUpdate.latitude location_data)
      (LocationUpdate.longitude location_data)
      (Geofence.latitude geofence)
      (Geofence.longitude geofence) in
  let is_inside := Rleb distance (Geofence.radius_meters geofence) in
  recent_event <-
    lift (scalar_one_or_none (recent_events now db geofence current_user)) ;;
  match decide_event is_inside geofence recent_event with
  | Some event_type =>
      db_add (new_geofence_event now current_user location_data geofence
                event_type distance) ;;;
      publish_geofence_event
        (transition_message now current_user location_data geofence
           event_type distance)
  | None => ret tt
  end.

(** "Get all active geofences for the user" *)
Definition active_geofences (db : Database) (current_user : User.t)
  : list Geofence.t :=
  filter
    (fun g =>
       (Geofence.user_id g =? User.id current_user) && Geofence.is_active g)
    (geofences db).

(** The body of the [try] block up to [db.commit()]: the session it leaves
    and the exception that interrupted it, if any. *)
Definition check_geofences (now : datetime) (current_user : User.t)
    (location_data : LocationUpdate.t) (db : Database)
  : Session * (PyException + unit) :=
  for_each (check_geofence now current_user location_data db)
    (active_geofences db current_user) empty_session.

Definition update_location (now : datetime) (current_user : User.t)
    (location_data : LocationUpdate.t) (db : Database) : Outcome string :=
  match check_geofences now current_user location_data db with
  | (s, inr _) =>
      {| response := Ok 200 "Location updated successfully";
         db_after := commit db s;
         published := outbox s |}
  | (s, inl e) =>
      (* db.rollback() *)
      {| response := Error 500 ("Failed to update location: " ++ str e)%string;
         db_after := db;
         published := outbox s |}
  end.

(** *** create_geofence

    [new_id] is the key drawn by [uuid4] and [location_info] the answer of
    the reverse geocoder, which never raises. *)

Definition new_geofence_row (now : datetime) (new_id : UUID)
    (location_info : option LocationInfo) (geofence_data : GeofenceCreate.t)
    (current_user : User.t) : Geofence.t :=
  {| Geofence.id := new_id;
     Geofence.user_id := User.id current_user;
     Geofence.name := GeofenceCreate.name geofence_data;
     Geofence.description := GeofenceCreate.description geofence_data;
     Geofence.geofence_type := GeofenceCreate.geofence_type geofence_data;
     Geofence.latitude := GeofenceCreate.latitude geofence_data;
     Geofence.longitude := GeofenceCreate.longitude geofence_data;
     Geofence.radius_meters := GeofenceCreate.radius_meters geofence_data;
     Geofence.is_active := GeofenceCreate.is_active geofence_data;
     Geofence.notify_on_enter := GeofenceCreate.notify_on_enter geofence_data;
     Geofence.notify_on_exit := GeofenceCreate.notify_on_exit geofence_data;
     (* column defaults *)
     Geofence.trigger_on_dwell := false;
     Geofence.dwell_time_minutes := 5;
     Geofence.metadata :=
       {| Geofence.location_info := location_info;
          Geofence.created_via := "api" |};
     Geofence.created_at := now;
     Geofence.updated_at := now |}.

Definition create_geofence (now : datetime) (new_id : UUID)
    (location_info : option LocationInfo) (geofence_data : GeofenceCreate.t)
    (current_user : User.t) (db : Database) : Outcome GeofenceResponse.t :=
  let geofence_count :=
    Z.of_nat (List.length (active_geofences db current_user)) in
  if 10 <=? geofence_count then
    {| response := Error 400 "Maximum of 10 active geofences allowed";
       db_after := db;
       published := [] |}
  else
    let new_geofence :=
      new_geofence_row now new_id location_info geofence_data current_user in
    {| response := Ok 201 (geofence_response new_geofence);
       db_after :=
         {| geofences := geofences db ++ [new_geofence];
            geofence_events := geofence_events db |};
       published :=
         [geofence_created
            (Geofence.id new_geofence)
            (User.id current_user)
            (Geofence.name new_geofence)
            (Geofence.geofence_type new_geofence)
            (Geofence.latitude new_geofence)
            (Geofence.longitude new_geofence)
            (Geofence.radius_meters new_geofence)
            (Geofence.is_active new_geofence)
            (Geofence.created_at new_geofence)] |}.

(** *** get_geofence, update_geofence, delete_geofence *)

(** The query shared by the three handlers: the geofence with this key that
    belongs to the requesting user. *)
Definition select_owned (db : Database) (geofence_id : UUID)
    (current_user : User.t) : PyException + option Geofence.t :=
  scalar_one_or_none
    (filter
       (fun g =>
          (Geofence.id g =? geofence_id)
          && (Geofence.user_id g =? User.id current_user))
       (geofences db)).

Definition not_found {A : Type} (db : Database) : Outcome A :=
  {| response := Error 404 "Geofence not found";
     db_after := db;
     published := [] |}.

Definition get_geofence (geofence_id : UUID) (current_user : User.t)
    (db : Database) : Outcome GeofenceResponse.t :=
  match select_owned db geofence_id current_user with
  | inr None => not_found db
  | inr (Some geofence) =>
      {| response := Ok 200 (geofence_response geofence);
         db_after := db;
         published := [] |}
  | inl e =>
      {| response :=
           Error 500 ("Failed to retrieve geofence: " ++ str e)%string;
         db_after := db;
         published := [] |}
  end.

Definition or_keep {A : Type} (new : option A) (old : A) : A :=
  match new with
  | Some v => v
  | None => old
  end.

(** "Update geofence fields".  [updated_at] follows [onupdate=func.now()]. *)
Definition update_fields (now : datetime) (geofence_data : GeofenceUpdate.t)
    (geofence : Geofence.t) : Geofence.t :=
  {| Geofence.id := Geofence.id geofence;
     Geofence.user_id := Geofence.user_id geofence;
     Geofence.name :=
       or_keep (GeofenceUpdate.name geofence_data) (Geofence.name geofence);
     Geofence.description :=
       match GeofenceUpdate.description geofence_data with
       | Some v => Some v
       | None => Geofence.description geofence
       end;
     Geofence.geofence_type := Geofence.geofence_type geofence;
     Geofence.latitude :=
       or_keep (GeofenceUpdate.latitude geofence_data)
         (Geofence.latitude geofence);
     Geofence.longitude :=
       or_keep (GeofenceUpdate.longitude geofence_data)
         (Geofence.longitude geofence);
     Geofence.radius_meters :=
       or_keep (GeofenceUpdate.radius_meters geofence_data)
         (Geofence.radius_meters geofence);
     Geofence.is_active :=
       or_keep (GeofenceUpdate.is_active geofence_data)
         (Geofence.is_active geofence);
     Geofence.notify_on_enter :=
       or_keep (GeofenceUpdate.notify_on_enter geofence_data)
         (Geofence.notify_on_enter geofence);
     Geofence.notify_on_exit :=
       or_keep (GeofenceUpdate.notify_on_exit geofence_data)
         (Geofence.notify_on_exit geofence);
     Geofence.trigger_on_dwell := Geofence.trigger_on_dwell geofence;
     Geofence.dwell_time_minutes := Geofence.dwell_time_minutes geofence;
     Geofence.metadata := Geofence.metadata geofence;
     Geofence.created_at := Geofence.created_at geofence;
     Geofence.updated_at := now |}.

Definition update_geofence (now : datetime) (geofence_id : UUID)
    (geofence_data : GeofenceUpdate.t) (current_user : User.t)
    (db : Database) : Outcome GeofenceResponse.t :=
  match select_owned db geofence_id current_user with
  | inr None => not_found db
  | inr (Some geofence) =>
      let updated := update_fields now geofence_data geofence in
      {| response := Ok 200 (geofence_response updated);
         db_after :=
           {| geofences :=
                map (fun g =>
                       if Geofence.id g =? Geofence.id geofence
                       then updated else g)
                  (geofences db);
              geofence_events := geofence_events db |};
         published :=
           [geofence_updated (Geofence.id updated) (User.id current_user)
              geofence_data now] |}
  | inl e =>
      {| response :=
           Error 500 ("Failed to update geofence: " ++ str e)%string;
         db_after := db;
         published := [] |}
  end.

(** Deleting a geofence deletes its events (the relationship cascades). *)
Definition delete_geofence (now : datetime) (geofence_id : UUID)
    (current_user : User.t) (db : Database) : Outcome unit :=
  match select_owned db geofence_id current_user with
  | inr None => not_found db
  | inr (Some geofence) =>
      {| response := Ok 204 tt;
         db_after :=
           {| geofences :=
                filter (fun g => negb (Geofence.id g =? Geofence.id geofence))
                  (geofences db);
              geofence_events :=
                filter
                  (fun e =>
                     negb (GeofenceEvent.geofence_id e
                           =? Geofence.id geofence))
                  (geofence_events db) |};
         published :=
           [geofence_deleted geofence_id (User.id current_user)
              (Geofence.name geofence) now] |}
  | inl e =>
      {| response :=
           Error 500 ("Failed to delete geofence: " ++ str e)%string;
         db_after := db;
         published := [] |}
  end.

End Router.

(** ** Vocabulary of the properties *)

Module Spec.
Import Router.
Local Open Scope Z_scope.

(** The events handed to [db.add] while a location sample is evaluated, in
    order.  Each of them is published as well; they are written to the store
    when the request succeeds. *)
Definition emitted (now : datetime) (current_user : User.t)
    (location_data : LocationUpdate.t) (db : Database)
  : list GeofenceEvent.t :=
  pending (fst (check_geofences now current_user location_data db)).

(** [e] is the event that the loop body creates for [geofence]. *)
Definition created_for (now : datetime) (current_user : User.t)
    (location_data : LocationUpdate.t) (db : Database)
    (geofence : Geofence.t) (e : GeofenceEvent.t) : Prop :=
  let distance :=
    Location.calculate_distance
      (LocationUpdate.latitude location_data)
      (LocationUpdate.longitude location_data)
      (Geofence.latitude geofence)
      (Geofence.longitude geofence) in
  exists recent event_type,
    scalar_one_or_none (recent_events now db geofence current_user)
    = inr recent
    /\ decide_event
         (Location.Rleb distance (Geofence.radius_meters geofence))
         geofence recent
       = Some event_type
    /\ e = new_geofence_event now current_user location_data geofence
             event_type distance.

(** The evaluation of the sample emits an event of type [event_type] for the
    geofence [geofence_id]. *)
Definition emits (now : datetime) (current_user : User.t)
    (location_data : LocationUpdate.t) (db : Database)
    (geofence_id : UUID) (event_type : EventType) : Prop :=
  exists e,
    In e (emitted now current_user location_data db)
    /\ GeofenceEvent.geofence_id e = geofence_id
    /\ GeofenceEvent.event_type e = event_type.

(** [r] is an event of the pair (user, geofence). *)
Definition of_pair (current_user : User.t) (geofence_id : UUID)
    (r : GeofenceEvent.t) : Prop :=
  GeofenceEvent.geofence_id r = geofence_id
  /\ GeofenceEvent.user_id r = User.id current_user.

End Spec.

(** ** Concrete users, zones and samples *)

Module Scenario.
Import Router.
Local Open Scope string_scope.
Local Open Scope list_scope.
Local Open Scope Z_scope.

Definition alice : User.t :=
  {| User.id := 1; User.first_name := "Alice"; User.last_name := "Khan" |}.

Definition bob : User.t :=
  {| User.id := 2; User.first_name := "Bob"; User.last_name := "Malik" |}.

(** A circular zone of radius 150 m centred on the equator at longitude
    [lon], with its enter, exit and dwell triggers set and a dwell threshold
    of five minutes. *)
Definition zone (zone_id owner : UUID) (zone_name : string) (lon : R)
  : Geofence.t :=
  {| Geofence.id := zone_id;
     Geofence.user_id := owner;
     Geofence.name := zone_name;
     Geofence.description := None;
     Geofence.geofence_type := SAFE_ZONE;
     Geofence.latitude := 0%R;
     Geofence.longitude := lon;
     Geofence.radius_meters := 150%R;
     Geofence.is_active := true;
     Geofence.notify_on_enter := true;
     Geofence.notify_on_exit := true;
     Geofence.trigger_on_dwell := true;
     Geofence.dwell_time_minutes := 5;
     Geofence.metadata :=
       {| Geofence.location_info := None; Geofence.created_via := "api" |};
     Geofence.created_at := 0;
     Geofence.updated_at := 0 |}.

Definition home : Geofence.t := zone 10 1 "Home" 0%R.
Definition work : Geofence.t := zone 11 1 "Work" 1%R.

(** A sample on the equator at longitude [lon]. *)
Definition sample (lon : R) (sent_at : option datetime) : LocationUpdate.t :=
  {| LocationUpdate.latitude := 0%R;
     LocationUpdate.longitude := lon;
     LocationUpdate.accuracy := None;
     LocationUpdate.device_info := None;
     LocationUpdate.timestamp := sent_at |}.

(** At the centre of [home]. *)
Definition at_home : LocationUpdate.t := sample 0%R None.
(** [50 * PI] metres (about 157 m) east of the centre of [home]. *)
Definition near_home : LocationUpdate.t := sample (9 / 6371)%R None.
(** At the centre of [work], about 111 km east of [home]. *)
Definition at_work : LocationUpdate.t := sample 1%R None.

Definition event_of (now : datetime) (location_data : LocationUpdate.t)
    (geofence : Geofence.t) (event_type : EventType) : GeofenceEvent.t :=
  new_geofence_event now alice location_data geofence event_type
    (Location.calculate_distance
       (LocationUpdate.latitude location_data)
       (LocationUpdate.longitude location_data)
       (Geofence.latitude geofence)
       (Geofence.longitude geofence)).

Definition db_home : Database :=
  {| geofences := [home]; geofence_events := [] |}.

(** [alice] entered [home] at time 0. *)
Definition db_entered : Database :=
  {| geofences := [home];
     geofence_events := [event_of 0 at_home home ENTER] |}.

(** [alice] has two zones; she entered [home] at time 0 and left it at
    time 60. *)
Definition db_two_zones : Database :=
  {| geofences := [work; home];
     geofence_events :=
       [event_of 0 at_home home ENTER; event_of 60 near_home home EXIT] |}.

(** Ten active zones of [alice]. *)
Definition db_full : Database :=
  {| geofences :=
       map (fun i => zone i 1 "Zone" 0%R) [20; 21; 22; 23; 24; 25; 26; 27; 28; 29];
     geofence_events := [] |}.

(** A zone of [bob] only. *)
Definition db_bob : Database :=
  {| geofences := [zone 30 2 "Bob's home" 0%R]; geofence_events := [] |}.

Definition new_zone : GeofenceCreate.t :=
  {| GeofenceCreate.name := "School";
     GeofenceCreate.description := None;
     GeofenceCreate.geofence_type := SCHOOL_ZONE;
     GeofenceCreate.latitude := 0%R;
     GeofenceCreate.longitude := 0%R;
     GeofenceCreate.radius_meters := 200%R;
     GeofenceCreate.is_active := true;
     GeofenceCreate.notify_on_enter := true;
     GeofenceCreate.notify_on_exit := true |}.

Definition rename : GeofenceUpdate.t :=
  {| GeofenceUpdate.name := Some "Mine";
     GeofenceUpdate.description := None;
     GeofenceUpdate.latitude := None;
     GeofenceUpdate.longitude := None;
     GeofenceUpdate.radius_meters := None;
     GeofenceUpdate.is_active := None;
     GeofenceUpdate.notify_on_enter := None;
     GeofenceUpdate.notify_on_exit := None |}.

End Scenario.

(** ** backend/shared/location.py, continued *)

Module Geodesy.
Import Location.
Local Open Scope R_scope.

(** [math.degrees] *)
Definition degrees (x : R) : R := x * (180 / PI).

(** [math.atan2], on real numbers (there is no signed zero). *)
Definition atan2 (y x : R) : R :=
  if Rlt_dec 0 x then atan (y / x)
  else if Rlt_dec x 0 then
    if Rle_dec 0 y then atan (y / x) + PI else atan (y / x) - PI
  else if Rlt_dec 0 y then PI / 2
  else if Rlt_dec y 0 then - (PI / 2)
  else 0.

(** [x % m] on floats, for a positive [m]: the remainder has the sign of the
    divisor. *)
Definition float_mod (x m : R) : R := x - m * IZR (Int_part (x / m)).

Definition calculate_bearing (lat1 lon1 lat2 lon2 : R) : R :=
  let lat1_rad := radians lat1 in
  let lat2_rad := radians lat2 in
  let dlon_rad := radians (lon2 - lon1) in
  let y := sin dlon_rad * cos lat2_rad in
  let x := cos lat1_rad * sin lat2_rad
           - sin lat1_rad * cos lat2_rad * cos dlon_rad in
  let bearing_rad := atan2 y x in
  let bearing_deg := degrees bearing_rad in
  let bearing_deg := float_mod (bearing_deg + 360) 360 in
  bearing_deg.

End Geodesy.

(** ** Vocabulary of the further properties *)

Module Views.
Import Router.
Local Open Scope string_scope.
Local Open Scope Z_scope.

(** The geofence and the event type that a published transition message
    names. *)
Definition transition_key (message : Message) : option (UUID * string) :=
  match message with
  | geofence_transition event_type geofence_id _ _ _ _ _ _ _ _ _ =>
      Some (geofence_id, event_type)
  | _ => None
  end.

(** The same pair, read from a stored event. *)
Definition event_key (e : GeofenceEvent.t) : option (UUID * string) :=
  Some (GeofenceEvent.geofence_id e,
        ("geofence_" ++ EventType_value (GeofenceEvent.event_type e))%string).

(** A sequence of creation requests, each with the user who sends it, the
    key drawn for the new geofence and the request body. *)
Definition create_all (now : datetime)
    (requests : list (User.t * UUID * GeofenceCreate.t)) (db : Database)
  : Database :=
  fold_left
    (fun db request =>
       match request with
       | (current_user, new_id, geofence_data) =>
           db_after
             (create_geofence now new_id None geofence_data current_user db)
       end)
    requests db.

End Views.

(** ** Further concrete stores and requests *)

Module Accounts.
Import Router Scenario.
Local Open Scope string_scope.
Local Open Scope list_scope.
Local Open Scope Z_scope.

Definition creations : list (User.t * UUID * GeofenceCreate.t) :=
  [(alice, 50, new_zone); (bob, 51, new_zone); (alice, 52, new_zone)].

End Accounts.

(** ** backend/geofencing_service/schemas.py

    The request bodies are instances of the classes of [schemas.py]; the
    records below carry the fields those classes declare.  The validators of
    the classes restrict the values of the fields (latitude within 90
    degrees, longitude within 180, a radius between 10 m and 100 km for a
    circle, ...); the properties proved on these records hold for every
    value of the fields, and so for the validated ones. *)

Module Schemas.
Import Router.

Inductive GeofenceType :=
| SAFE_ZONE | RESTRICTED_ZONE | HOME | WORK | SCHOOL | CUSTOM.

Inductive GeofenceEventType := ENTER | EXIT | DWELL | BREACH.

Inductive GeofenceShape := CIRCLE | POLYGON | RECTANGLE.

(** [Dict[str, Any]] *)
Definition Dict := list (string * string).

Module LocationUpdate.
Record t :=
  { latitude : R;
    longitude : R;
    accuracy : option R;
    altitude : option R;
    speed : option R;
    heading : option R;
    timestamp : option datetime }.
End LocationUpdate.

Module GeofenceCreate.
Record t :=
  { name : string;
    description : option string;
    geofence_type : GeofenceType;
    shape : GeofenceShape;
    center_latitude : R;
    center_longitude : R;
    radius_meters : option R;
    coordinates : option (list (R * R));
    is_active : bool;
    send_notifications : bool;
    notification_events : list GeofenceEventType;
    metadata : option Dict }.
End GeofenceCreate.

Module GeofenceResponse.
Record t :=
  { id : UUID;
    user_id : UUID;
    name : string;
    description : option string;
    geofence_type : GeofenceType;
    shape : GeofenceShape;
    center_latitude : R;
    center_longitude : R;
    radius_meters : option R;
    coordinates : option (list (R * R));
    is_active : bool;
    send_notifications : bool;
    notification_events : list GeofenceEventType;
    created_at : datetime;
    updated_at : datetime;
    last_triggered : option datetime;
    trigger_count : Z;
    address : option string;
    metadata : option Dict }.
End GeofenceResponse.

End Schemas.

(** ** The handlers of router.py on the request classes of schemas.py

    [update_location] reads [location_data.device_info] when it builds a
    [GeofenceEvent], and [create_geofence] reads [geofence_data.latitude]
    when it calls the reverse geocoder.  [LocationUpdate] and
    [GeofenceCreate] declare no such attribute, so each of these reads
    raises [AttributeError]; the handler catches it with [except Exception],
    rolls the session back and answers with status 500.

    The queries, the containment test and the decision of the loop body are
    those of [Router]: [active_geofences], [recent_events],
    [scalar_one_or_none] and [decide_event]. *)

Module Endpoint.
Import Location Router.
Local Open Scope string_scope.
Local Open Scope list_scope.
Local Open Scope Z_scope.

(** What the [try] block of a handler can raise. *)
Inductive Raised :=
| FromSession (e : PyException)
| AttributeError (class_name attribute : string).

Definition str (e : Raised) : string :=
  match e with
  | FromSession e => Router.str e
  | AttributeError class_name attribute =>
      "'" ++ class_name ++ "' object has no attribute '" ++ attribute ++ "'"
  end.

Definition Txn (A : Type) : Type := Session -> Session * (Raised + A).

Definition ret {A : Type} (a : A) : Txn A := fun s => (s, inr a).

Definition bind {A B : Type} (m : Txn A) (k : A -> Txn B) : Txn B :=
  fun s =>
    match m s with
    | (s', inr a) => k a s'
    | (s', inl e) => (s', inl e)
    end.

Definition raise {A : Type} (e : Raised) : Txn A := fun s => (s, inl e).

Definition lift {A : Type} (r : PyException + A) : Txn A :=
  fun s =>
    match r with
    | inr a => (s, inr a)
    | inl e => (s, inl (FromSession e))
    end.

Definition db_add (geofence_event : GeofenceEvent.t) : Txn unit :=
  fun s =>
    ({| pending := pending s ++ [geofence_event]; outbox := outbox s |},
     inr tt).

Definition publish_geofence_event (message : Message) : Txn unit :=
  fun s =>
    ({| pending := pending s; outbox := outbox s ++ [message] |}, inr tt).

Fixpoint for_each {A : Type} (body : A -> Txn unit) (items : list A)
  : Txn unit :=
  match items with
  | [] => ret tt
  | item :: rest => bind (body item) (fun _ => for_each body rest)
  end.

(** *** update_location *)

(** [location_data.device_info] *)
Definition device_info (location_data : Schemas.LocationUpdate.t)
  : Txn (option string) :=
  raise (AttributeError "LocationUpdate" "device_info").

(** [GeofenceEvent(...)]: the keyword arguments are evaluated in the order
    in which they are written, the entries of the [metadata] dictionary
    among them. *)
Definition new_geofence_event (now : datetime) (current_user : User.t)
    (location_data : Schemas.LocationUpdate.t) (geofence : Geofence.t)
    (event_type : EventType) (distance : R) : Txn GeofenceEvent.t :=
  let location_accuracy := Schemas.LocationUpdate.accuracy location_data in
  bind (device_info location_data) (fun device_info =>
  ret
    {| GeofenceEvent.geofence_id := Geofence.id geofence;
       GeofenceEvent.user_id := User.id current_user;
       GeofenceEvent.event_type := event_type;
       GeofenceEvent.latitude :=
         Schemas.LocationUpdate.latitude location_data;
       GeofenceEvent.longitude :=
         Schemas.LocationUpdate.longitude location_data;
       GeofenceEvent.distance_meters := distance;
       GeofenceEvent.metadata :=
         {| GeofenceEvent.location_accuracy := location_accuracy;
            GeofenceEvent.device_info := device_info;
            GeofenceEvent.geofence_name := Geofence.name geofence;
            GeofenceEvent.geofence_type := Geofence.geofence_type geofence |};
       GeofenceEvent.created_at := now |}).

Definition transition_message (now : datetime) (current_user : User.t)
    (location_data : Schemas.LocationUpdate.t) (geofence : Geofence.t)
    (event_type : EventType) (distance : R) : Message :=
  geofence_transition
    ("geofence_" ++ EventType_value event_type)
    (Geofence.id geofence)
    (Geofence.name geofence)
    (Geofence.geofence_type geofence)
    (User.id current_user)
    (User.first_name current_user ++ " " ++ User.last_name current_user)
    (Schemas.LocationUpdate.latitude location_data)
    (Schemas.LocationUpdate.longitude location_data)
    distance
    now
    (if GeofenceType_eqb (Geofence.geofence_type geofence) SAFE_ZONE
     then "MEDIUM" else "HIGH").

(** The body of the loop over the user's active geofences. *)
Definition check_geofence (now : datetime) (current_user : User.t)
    (location_data : Schemas.LocationUpdate.t) (db : Database)
    (geofence : Geofence.t) : Txn unit :=
  let distance :=
    calculate_distance
      (Schemas.LocationUpdate.latitude location_data)
      (Schemas.LocationUpdate.longitude location_data)
      (Geofence.latitude geofence)
      (Geofence.longitude geofence) in
  let is_inside := Rleb distance (Geofence.radius_meters geofence) in
  bind
    (lift (scalar_one_or_none (recent_events now db geofence current_user)))
    (fun recent_event =>
       match decide_event is_inside geofence recent_event with
       | Some event_type =>
           bind
             (new_geofence_event now current_user location_data geofence
                event_type distance)
             (fun geofence_event =>
                bind (db_add geofence_event)
                  (fun _ =>
                     publish_geofence_event
                       (transition_message now current_user location_data
                          geofence event_type distance)))
       | None => ret tt
       end).

(** The body of the [try] block up to [db.commit()]: the session it leaves
    and the exception that interrupted it, if any. *)
Definition check_geofences (now : datetime) (current_user : User.t)
    (location_data : Schemas.LocationUpdate.t) (db : Database)
  : Session * (Raised + unit) :=
  for_each (check_geofence now current_user location_data db)
    (active_geofences db current_user) empty_session.

Definition update_location (now : datetime) (current_user : User.t)
    (location_data : Schemas.LocationUpdate.t) (db : Database)
  : Outcome string :=
  match check_geofences now current_user location_data db with
  | (s, inr _) =>
      {| response := Ok 200 "Location updated successfully";
         db_after := commit db s;
         published := outbox s |}
  | (s, inl e) =>
      (* db.rollback() *)
      {| response := Error 500 ("Failed to update location: " ++ str e);
         db_after := db;
         published := outbox s |}
  end.

(** *** create_geofence *)

Definition create_geofence (geofence_data : Schemas.GeofenceCreate.t)
    (current_user : User.t) (db : Database)
  : Outcome Schemas.GeofenceResponse.t :=
  let geofence_count :=
    Z.of_nat (List.length (active_geofences db current_user)) in
  if 10 <=? geofence_count then
    (* except HTTPException: raise *)
    {| response := Error 400 "Maximum of 10 active geofences allowed";
       db_after := db;
       published := [] |}
  else
    (* [get_location_info(geofence_data.latitude, geofence_data.longitude)]:
       the first argument raises, and the statements that follow it in the
       [try] block are not reached *)
    let e := AttributeError "GeofenceCreate" "latitude" in
    (* except Exception: db.rollback() *)
    {| response := Error 500 ("Failed to create geofence: " ++ str e);
       db_after := db;
       published := [] |}.

End Endpoint.

(** ** What a request is observed to do *)

Module Trace.
Import Router.
Local Open Scope string_scope.
Local Open Scope list_scope.
Local Open Scope Z_scope.

(** The rows that the request added to the table of events. *)
Definition new_events {A : Type} (db : Database) (out : Outcome A)
  : list GeofenceEvent.t :=
  skipn (List.length (geofence_events db)) (geofence_events (db_after out)).

(** The request emitted an event of type [event_type] for the geofence: it
    stored such a row or published such a message. *)
Definition emits_event {A : Type} (db : Database) (out : Outcome A)
    (geofence_id : UUID) (event_type : EventType) : Prop :=
  (exists e,
      In e (new_events db out)
      /\ GeofenceEvent.geofence_id e = geofence_id
      /\ GeofenceEvent.event_type e = event_type)
  \/ (exists message,
         In message (published out)
         /\ Views.transition_key message
            = Some (geofence_id,
                    ("geofence_" ++ EventType_value event_type)%string)).

(** The evaluation of the zone leaves the loop body without an exception. *)
Definition completes (now : datetime) (current_user : User.t)
    (location_data : Schemas.LocationUpdate.t) (db : Database)
    (geofence : Geofence.t) : Prop :=
  snd (Endpoint.check_geofence now current_user location_data db geofence
         empty_session)
  = inr tt.

(** The evaluation of the zone raises [e]. *)
Definition raises (now : datetime) (current_user : User.t)
    (location_data : Schemas.LocationUpdate.t) (db : Database)
    (geofence : Geofence.t) (e : Endpoint.Raised) : Prop :=
  snd (Endpoint.check_geofence now current_user location_data db geofence
         empty_session)
  = inl e.

(** The answer of [update_location] when the [try] block raises [e]. *)
Definition failed (db : Database) (e : Endpoint.Raised) : Outcome string :=
  {| response :=
       Error 500 ("Failed to update location: " ++ Endpoint.str e)%string;
     db_after := db;
     published := [] |}.

(** A sequence of location updates of one user, each with the time of its
    request, applied one after the other: the outcome of each request. *)
Fixpoint replay (current_user : User.t)
    (requests : list (datetime * Schemas.LocationUpdate.t)) (db : Database)
  : list (Outcome string) :=
  match requests with
  | [] => []
  | (now, location_data) :: rest =>
      let out := Endpoint.update_location now current_user location_data db in
      out :: replay current_user rest (db_after out)
  end.

End Trace.

(** ** Concrete request bodies *)

Module Samples.
Import Router.
Local Open Scope string_scope.
Local Open Scope list_scope.
Local Open Scope Z_scope.

(** A sample on the equator at longitude [lon]. *)
Definition sample (lon : R) (sent_at : option datetime)
  : Schemas.LocationUpdate.t :=
  {| Schemas.LocationUpdate.latitude := 0%R;
     Schemas.LocationUpdate.longitude := lon;
     Schemas.LocationUpdate.accuracy := None;
     Schemas.LocationUpdate.altitude := None;
     Schemas.LocationUpdate.speed := None;
     Schemas.LocationUpdate.heading := None;
     Schemas.LocationUpdate.timestamp := sent_at |}.

(** At the centre of [Scenario.home]. *)
Definition at_home (sent_at : option datetime) : Schemas.LocationUpdate.t :=
  sample 0%R sent_at.
(** [50 * PI] metres (about 157 m) east of the centre of [Scenario.home]. *)
Definition near_home (sent_at : option datetime) : Schemas.LocationUpdate.t :=
  sample (9 / 6371)%R sent_at.

(** A circular zone of 200 m. *)
Definition school : Schemas.GeofenceCreate.t :=
  {| Schemas.GeofenceCreate.name := "School";
     Schemas.GeofenceCreate.description := None;
     Schemas.GeofenceCreate.geofence_type := Schemas.SCHOOL;
     Schemas.GeofenceCreate.shape := Schemas.CIRCLE;
     Schemas.GeofenceCreate.center_latitude := 0%R;
     Schemas.GeofenceCreate.center_longitude := 0%R;
     Schemas.GeofenceCreate.radius_meters := Some 200%R;
     Schemas.GeofenceCreate.coordinates := None;
     Schemas.GeofenceCreate.is_active := true;
     Schemas.GeofenceCreate.send_notifications := true;
     Schemas.GeofenceCreate.notification_events :=
       [Schemas.ENTER; Schemas.EXIT];
     Schemas.GeofenceCreate.metadata := None |}.

(** A zone of [alice] around the centre of [Scenario.home] whose only trigger
    is the dwell trigger, with a dwell threshold of five minutes. *)
Definition lounge : Geofence.t :=
  {| Geofence.id := 12;
     Geofence.user_id := 1;
     Geofence.name := "Lounge";
     Geofence.description := None;
     Geofence.geofence_type := CUSTOM;
     Geofence.latitude := 0%R;
     Geofence.longitude := 0%R;
     Geofence.radius_meters := 150%R;
     Geofence.is_active := true;
     Geofence.notify_on_enter := false;
     Geofence.notify_on_exit := false;
     Geofence.trigger_on_dwell := true;
     Geofence.dwell_time_minutes := 5;
     Geofence.metadata :=
       {| Geofence.location_info := None; Geofence.created_via := "api" |};
     Geofence.created_at := 0;
     Geofence.updated_at := 0 |}.

(** [alice] has the zone [lounge] only, and no event is stored. *)
Definition db_lounge : Database :=
  {| geofences := [lounge]; geofence_events := [] |}.



End Samples.

(** ** Properties of the geometry evaluator *)

Section Geometry.
Import Location.
Local Open Scope R_scope.

Lemma Rleb_true_iff (x y : R) : Rleb x y = true <-> x <= y.
Proof.
  unfold Rleb. destruct (Rle_dec x y); split; intros; auto; discriminate.
Qed.

Lemma Rleb_false_iff (x y : R) : Rleb x y = false <-> y < x.
Proof.
  unfold Rleb. destruct (Rle_dec x y); split; intros; try discriminate; auto.
  - lra.
  - lra.
Qed.

Lemma sin_half_sq_sym (x y : R) :
  sin ((x - y) / 2) ^ 2 = sin ((y - x) / 2) ^ 2.
Proof.
  replace ((x - y) / 2) with (- ((y - x) / 2)) by lra.
  rewrite sin_neg. ring.
Qed.

Lemma calculate_distance_sym (lat1 lon1 lat2 lon2 : R) :
  calculate_distance lat1 lon1 lat2 lon2
  = calculate_distance lat2 lon2 lat1 lon1.
Proof.
  unfold calculate_distance.
  rewrite (sin_half_sq_sym (radians lat2) (radians lat1)).
  rewrite (sin_half_sq_sym (radians lon2) (radians lon1)).
  rewrite (Rmult_comm (cos (radians lat1)) (cos (radians lat2))).
  reflexivity.
Qed.

Lemma calculate_distance_same (lat lon : R) :
  calculate_distance lat lon lat lon = 0.
Proof.
  unfold calculate_distance.
  replace ((radians lat - radians lat) / 2) with 0 by lra.
  replace ((radians lon - radians lon) / 2) with 0 by lra.
  rewrite sin_0.
  replace (0 ^ 2 + cos (radians lat) * cos (radians lat) * 0 ^ 2) with 0
    by ring.
  rewrite sqrt_0, asin_0. ring.
Qed.

(** Along the equator the distance is the arc length [earth_radius * dlon]. *)
Lemma calculate_distance_equator (lon : R) :
  0 <= lon <= 180 ->
  calculate_distance 0 lon 0 0 = earth_radius * radians lon.
Proof.
  intros [Hlo Hhi]. unfold calculate_distance.
  assert (HPI := PI_RGT_0).
  assert (Hr0 : radians 0 = 0) by (unfold radians; lra).
  rewrite Hr0.
  replace ((0 - 0) / 2) with 0 by lra.
  rewrite sin_0, cos_0.
  replace ((0 - radians lon) / 2) with (- (radians lon / 2)) by lra.
  rewrite sin_neg.
  replace (0 ^ 2 + 1 * 1 * (- sin (radians lon / 2)) ^ 2)
    with ((sin (radians lon / 2)) ^ 2) by ring.
  assert (Hrange : 0 <= radians lon / 2 <= PI / 2).
  { unfold radians. split; nra. }
  assert (Hsin : 0 <= sin (radians lon / 2)).
  { apply sin_ge_0; lra. }
  rewrite sqrt_pow2 by exact Hsin.
  rewrite asin_sin by lra.
  lra.
Qed.

(** A point 9/6371 degrees east of (0, 0) is [50 * PI] metres away, that is
    between 150 m and 200 m. *)
Lemma distance_50_PI : calculate_distance 0 (9 / 6371) 0 0 = 50 * PI.
Proof.
  rewrite calculate_distance_equator by lra.
  unfold earth_radius, radians. field.
Qed.

Lemma distance_50_PI_bounds : 150 < 50 * PI <= 200.
Proof.
  assert (H1 := PI2_3_2). assert (H2 := PI_4). lra.
Qed.

(** C6: the circle containment test is true when the great-circle distance
    from the centre to the point is strictly less than the radius, true when
    it equals the radius (inclusive boundary), and false when it is strictly
    greater. *)
Theorem is_point_in_circle_spec
    (point_lat point_lon center_lat center_lon radius_meters : R) :
  let distance :=
    calculate_distance point_lat point_lon center_lat center_lon in
  (distance < radius_meters ->
   is_point_in_circle point_lat point_lon center_lat center_lon radius_meters
   = true)
  /\ (distance = radius_meters ->
      is_point_in_circle point_lat point_lon center_lat center_lon
        radius_meters = true)
  /\ (distance > radius_meters ->
      is_point_in_circle point_lat point_lon center_lat center_lon
        radius_meters = false).
Proof.
  intros distance. unfold is_point_in_circle. fold distance.
  repeat split; intros H.
  - apply Rleb_true_iff. lra.
  - apply Rleb_true_iff. lra.
  - apply Rleb_false_iff. lra.
Qed.

(** C7: the great-circle distance is symmetric in its two points and is zero
    between a point and itself. *)
Theorem calculate_distance_symmetric_zero :
  (forall lat1 lon1 lat2 lon2 : R,
      calculate_distance lat1 lon1 lat2 lon2
      = calculate_distance lat2 lon2 lat1 lon1)
  /\ (forall lat lon : R, calculate_distance lat lon lat lon = 0).
Proof.
  split.
  - exact calculate_distance_sym.
  - exact calculate_distance_same.
Qed.

End Geometry.

(** ** Properties of the request handlers *)

Section Handlers.
Import Router Spec.
Local Open Scope Z_scope.

(** Distance of a sample from the centre of a geofence, as the loop body
    computes it. *)
Local Abbreviation distance_to location_data geofence :=
  (Location.calculate_distance
     (LocationUpdate.latitude location_data)
     (LocationUpdate.longitude location_data)
     (Geofence.latitude geofence)
     (Geofence.longitude geofence)).

Local Abbreviation is_inside_of location_data geofence :=
  (Location.Rleb (distance_to location_data geofence)
     (Geofence.radius_meters geofence)).

(** *** The query result *)

Lemma scalar_one_or_none_some {A : Type} (rows : list A) (row : A) :
  scalar_one_or_none rows = inr (Some row) -> rows = [row].
Proof.
  destruct rows as [|x [|y rest]]; simpl; intros H; inversion H; reflexivity.
Qed.

Lemma scalar_one_or_none_none {A : Type} (rows : list A) :
  scalar_one_or_none rows = inr None -> rows = [].
Proof.
  destruct rows as [|x [|y rest]]; simpl; intros H; inversion H; reflexivity.
Qed.

Lemma scalar_one_or_none_error {A : Type} (rows : list A) (e : PyException) :
  scalar_one_or_none rows = inl e ->
  e = MultipleResultsFound /\ (2 <= List.length rows)%nat.
Proof.
  destruct rows as [|x [|y rest]]; simpl; intros H; inversion H.
  split; [reflexivity | lia].
Qed.

Lemma scalar_one_or_none_many {A : Type} (rows : list A) :
  (2 <= List.length rows)%nat ->
  scalar_one_or_none rows = inl MultipleResultsFound.
Proof.
  destruct rows as [|x [|y rest]]; simpl; intros H; try lia; reflexivity.
Qed.

Lemma insert_desc_In (e x : GeofenceEvent.t) (l : list GeofenceEvent.t) :
  In x (insert_desc e l) <-> x = e \/ In x l.
Proof.
  induction l as [|e' l' IH]; simpl.
  - intuition congruence.
  - destruct (GeofenceEvent.created_at e' <=? GeofenceEvent.created_at e);
      simpl; rewrite ?IH; intuition congruence.
Qed.

Lemma order_by_created_at_desc_In (x : GeofenceEvent.t)
    (l : list GeofenceEvent.t) :
  In x (order_by_created_at_desc l) <-> In x l.
Proof.
  unfold order_by_created_at_desc.
  induction l as [|e l IH]; simpl.
  - tauto.
  - rewrite insert_desc_In, IH. intuition congruence.
Qed.

(** An event is returned by the query exactly when it is stored for the
    pair and is at most five minutes old. *)
Lemma recent_events_In (now : datetime) (db : Database) (g : Geofence.t)
    (u : User.t) (r : GeofenceEvent.t) :
  In r (recent_events now db g u) <->
  In r (geofence_events db)
  /\ GeofenceEvent.geofence_id r = Geofence.id g
  /\ GeofenceEvent.user_id r = User.id u
  /\ now - timedelta_minutes 5 <= GeofenceEvent.created_at r.
Proof.
  unfold recent_events.
  rewrite order_by_created_at_desc_In, filter_In.
  rewrite !andb_true_iff, !Z.eqb_eq, Z.leb_le. tauto.
Qed.

(** *** The decision table *)

Lemma decide_event_cases (is_inside : bool) (g : Geofence.t)
    (recent : option GeofenceEvent.t) (t : EventType) :
  decide_event is_inside g recent = Some t ->
  (t = ENTER /\ is_inside = true /\ Geofence.notify_on_enter g = true
   /\ (recent = None
       \/ exists r, recent = Some r /\ GeofenceEvent.event_type r = EXIT))
  \/ (t = EXIT /\ is_inside = false /\ Geofence.notify_on_exit g = true
      /\ exists r, recent = Some r /\ GeofenceEvent.event_type r = ENTER).
Proof.
  unfold decide_event.
  destruct is_inside; simpl.
  - destruct (Geofence.notify_on_enter g); simpl.
    + destruct recent as [r|].
      * destruct (GeofenceEvent.event_type r) eqn:Ht; simpl; intros H;
          inversion H; subst.
        left. repeat split; auto. right. exists r. auto.
      * intros H; inversion H; subst. left. repeat split; auto.
    + discriminate.
  - destruct (Geofence.notify_on_exit g); simpl.
    + destruct recent as [r|].
      * destruct (GeofenceEvent.event_type r) eqn:Ht; simpl; intros H;
          inversion H; subst.
        right. repeat split; auto. exists r. auto.
      * discriminate.
    + destruct (Geofence.notify_on_enter g); discriminate.
Qed.

(** *** The loop body and the loop *)

Lemma check_geofence_eq (now : datetime) (u : User.t)
    (loc : LocationUpdate.t) (db : Database) (g : Geofence.t) (s : Session) :
  check_geofence now u loc db g s =
  match scalar_one_or_none (recent_events now db g u) with
  | inl e => (s, inl e)
  | inr recent =>
      match decide_event (is_inside_of loc g) g recent with
      | Some t =>
          ({| pending :=
                pending s
                ++ [new_geofence_event now u loc g t (distance_to loc g)];
              outbox :=
                outbox s
                ++ [transition_message now u loc g t (distance_to loc g)] |},
           inr tt)
      | None => (s, inr tt)
      end
  end.
Proof.
  unfold check_geofence, bind, lift.
  destruct (scalar_one_or_none (recent_events now db g u)) as [e|recent].
  - reflexivity.
  - destruct (decide_event _ g recent); reflexivity.
Qed.

(** Every event of the session was there before the loop or was created by
    the loop body for one of the zones. *)
Lemma for_each_pending (now : datetime) (u : User.t) (loc : LocationUpdate.t)
    (db : Database) (zones : list Geofence.t) :
  forall (s s' : Session) (res : PyException + unit),
    for_each (check_geofence now u loc db) zones s = (s', res) ->
    forall e, In e (pending s') ->
      In e (pending s)
      \/ exists g, In g zones /\ created_for now u loc db g e.
Proof.
  induction zones as [|g zones IH]; intros s s' res Hrun e He.
  - simpl in Hrun. unfold ret in Hrun. inversion Hrun; subst. auto.
  - simpl in Hrun. unfold bind in Hrun.
    rewrite check_geofence_eq in Hrun.
    destruct (scalar_one_or_none (recent_events now db g u))
      as [err|recent] eqn:Hq.
    + inversion Hrun; subst. auto.
    + destruct (decide_event (is_inside_of loc g) g recent) as [t|] eqn:Hd.
      * destruct (IH _ _ _ Hrun e He) as [Hold | [g' [Hg' Hc]]].
        -- simpl in Hold. apply in_app_or in Hold.
           destruct Hold as [Hold | [Heq | []]].
           ++ auto.
           ++ right. exists g. split; [left; reflexivity|].
              exists recent, t. repeat split; auto.
        -- right. exists g'. split; [right; assumption | assumption].
      * destruct (IH _ _ _ Hrun e He) as [Hold | [g' [Hg' Hc]]].
        -- auto.
        -- right. exists g'. split; [right; assumption | assumption].
Qed.

Lemma emitted_created (now : datetime) (u : User.t) (loc : LocationUpdate.t)
    (db : Database) (e : GeofenceEvent.t) :
  In e (emitted now u loc db) ->
  exists g, In g (active_geofences db u) /\ created_for now u loc db g e.
Proof.
  unfold emitted, check_geofences. intros He.
  destruct (for_each (check_geofence now u loc db) (active_geofences db u)
              empty_session) as [s' res] eqn:Hrun.
  destruct (for_each_pending _ _ _ _ _ _ _ _ Hrun e He) as [[] | H].
  exact H.
Qed.

(** The loop over a single zone. *)
Lemma check_geofences_single (now : datetime) (u : User.t)
    (loc : LocationUpdate.t) (db : Database) (g : Geofence.t)
    (recent : option GeofenceEvent.t) (inside : bool) :
  active_geofences db u = [g] ->
  scalar_one_or_none (recent_events now db g u) = inr recent ->
  is_inside_of loc g = inside ->
  check_geofences now u loc db =
  match decide_event inside g recent with
  | Some t =>
      ({| pending := [new_geofence_event now u loc g t (distance_to loc g)];
          outbox := [transition_message now u loc g t (distance_to loc g)] |},
       inr tt)
  | None => (empty_session, inr tt)
  end.
Proof.
  intros Hz Hq Hin. unfold check_geofences. rewrite Hz.
  simpl. unfold bind. rewrite check_geofence_eq, Hq, Hin.
  destruct (decide_event inside g recent); reflexivity.
Qed.

Lemma commit_empty (db : Database) : commit db empty_session = db.
Proof.
  destruct db as [gs es]. unfold commit. simpl. rewrite app_nil_r.
  reflexivity.
Qed.

Lemma created_for_fields (now : datetime) (u : User.t)
    (loc : LocationUpdate.t) (db : Database) (g : Geofence.t)
    (e : GeofenceEvent.t) :
  created_for now u loc db g e ->
  GeofenceEvent.geofence_id e = Geofence.id g
  /\ GeofenceEvent.user_id e = User.id u
  /\ GeofenceEvent.created_at e = now.
Proof.
  intros [recent [t [_ [_ He]]]]. subst e. simpl. auto.
Qed.

(** The zone for which an event was created and the query result that
    decided it. *)
Lemma emits_decided (now : datetime) (u : User.t) (loc : LocationUpdate.t)
    (db : Database) (gid : UUID) (t : EventType) :
  emits now u loc db gid t ->
  exists g recent,
    In g (active_geofences db u)
    /\ Geofence.id g = gid
    /\ scalar_one_or_none (recent_events now db g u) = inr recent
    /\ decide_event (is_inside_of loc g) g recent = Some t.
Proof.
  intros [e [He [Hgid Ht]]].
  destruct (emitted_created _ _ _ _ _ He) as [g [Hg Hc]].
  destruct (created_for_fields _ _ _ _ _ _ Hc) as [Hid _].
  destruct Hc as [recent [t' [Hq [Hd Heq]]]].
  exists g, recent. subst e. simpl in *. subst. auto.
Qed.

(** *** Claims about update_location *)

(** C9: an EXIT event for a (user, geofence) pair is emitted only if a stored
    event of that pair created within the last five minutes exists and its
    type is ENTER; so no EXIT is emitted for a pair without stored events
    (the first event of a pair is never EXIT), and none is emitted when every
    stored event of the pair is older than five minutes, wherever the sample
    lies. *)
Theorem exit_only_after_recent_enter (now : datetime) (u : User.t)
    (loc : LocationUpdate.t) (db : Database) (gid : UUID) :
  (emits now u loc db gid EXIT ->
   exists r,
     In r (geofence_events db) /\ of_pair u gid r
     /\ now - timedelta_minutes 5 <= GeofenceEvent.created_at r
     /\ GeofenceEvent.event_type r = ENTER)
  /\ ((forall r, In r (geofence_events db) -> ~ of_pair u gid r) ->
      ~ emits now u loc db gid EXIT)
  /\ ((forall r, In r (geofence_events db) -> of_pair u gid r ->
                 GeofenceEvent.created_at r < now - timedelta_minutes 5) ->
      ~ emits now u loc db gid EXIT).
Proof.
  assert (Hmain :
    emits now u loc db gid EXIT ->
    exists r,
      In r (geofence_events db) /\ of_pair u gid r
      /\ now - timedelta_minutes 5 <= GeofenceEvent.created_at r
      /\ GeofenceEvent.event_type r = ENTER).
  { intros Hem.
    destruct (emits_decided _ _ _ _ _ _ Hem) as [g [recent [Hg [Hid [Hq Hd]]]]].
    apply decide_event_cases in Hd.
    destruct Hd as [[Ht _] | [_ [_ [_ [r [Hr Htype]]]]]]; [discriminate|].
    subst recent. apply scalar_one_or_none_some in Hq.
    assert (Hin : In r (recent_events now db g u))
      by (rewrite Hq; left; reflexivity).
    apply recent_events_In in Hin.
    destruct Hin as [Hstored [Hg_id [Hu_id Hrecent]]].
    exists r. unfold of_pair. subst gid. auto. }
  split; [exact Hmain|]. split.
  - intros Hnone Hem. destruct (Hmain Hem) as [r [Hr [Hp _]]].
    exact (Hnone r Hr Hp).
  - intros Hold Hem. destruct (Hmain Hem) as [r [Hr [Hp [Hrecent _]]]].
    specialize (Hold r Hr Hp). lia.
Qed.

(** *** Claims about the management handlers *)

Lemma select_owned_none (db : Database) (gid : UUID) (u : User.t) :
  (forall g, In g (geofences db) -> Geofence.id g = gid ->
             Geofence.user_id g <> User.id u) ->
  select_owned db gid u = inr None.
Proof.
  intros Hnot. unfold select_owned.
  replace (filter _ (geofences db)) with (@nil Geofence.t); [reflexivity|].
  symmetry.
  induction (geofences db) as [|g gs IH]; simpl.
  - reflexivity.
  - destruct (Geofence.id g =? gid) eqn:Hid; simpl.
    + destruct (Geofence.user_id g =? User.id u) eqn:Hu; simpl.
      * apply Z.eqb_eq in Hid, Hu.
        exfalso. apply (Hnot g); [left; reflexivity | exact Hid | exact Hu].
      * apply IH. intros g' Hg'. apply Hnot. right. exact Hg'.
    + apply IH. intros g' Hg'. apply Hnot. right. exact Hg'.
Qed.

(** C10: reading, updating and deleting a geofence are scoped to its owner.
    For a geofence key that no geofence of the requesting user carries (also
    when a geofence of another user carries it) the three handlers answer
    404 Not Found, return nothing of the stored geofence, publish nothing
    and leave the store as it was. *)
Theorem foreign_geofence_not_found (now : datetime) (gid : UUID)
    (geofence_data : GeofenceUpdate.t) (u : User.t) (db : Database) :
  (forall g, In g (geofences db) -> Geofence.id g = gid ->
             Geofence.user_id g <> User.id u) ->
  get_geofence gid u db
  = {| response := Error 404 "Geofence not found"%string;
       db_after := db; published := [] |}
  /\ update_geofence now gid geofence_data u db
     = {| response := Error 404 "Geofence not found"%string;
          db_after := db; published := [] |}
  /\ delete_geofence now gid u db
     = {| response := Error 404 "Geofence not found"%string;
          db_after := db; published := [] |}.
Proof.
  intros Hnot.
  unfold get_geofence, update_geofence, delete_geofence.
  rewrite (select_owned_none db gid u Hnot).
  repeat split; reflexivity.
Qed.

End Handlers.

(** ** The claims on concrete zones and samples *)

Section Scenarios.
Import Location Router Spec Scenario.
Local Open Scope Z_scope.

(** *** Where the samples lie *)

Lemma inside_at_centre (lon : R) :
  Rleb (calculate_distance 0 lon 0 lon) 150 = true.
Proof.
  apply Rleb_true_iff. rewrite calculate_distance_same. lra.
Qed.

Lemma outside_near_home :
  Rleb (calculate_distance 0 (9 / 6371) 0 0) 150 = false.
Proof.
  apply Rleb_false_iff. rewrite distance_50_PI.
  apply distance_50_PI_bounds.
Qed.


(** *** Single requests *)

Lemma emitted_single (now : datetime) (u : User.t) (loc : LocationUpdate.t)
    (db : Database) (g : Geofence.t) (recent : option GeofenceEvent.t)
    (inside : bool) (t : EventType) :
  active_geofences db u = [g] ->
  scalar_one_or_none (recent_events now db g u) = inr recent ->
  Rleb
    (calculate_distance (LocationUpdate.latitude loc)
       (LocationUpdate.longitude loc) (Geofence.latitude g)
       (Geofence.longitude g))
    (Geofence.radius_meters g) = inside ->
  decide_event inside g recent = Some t ->
  emitted now u loc db
  = [new_geofence_event now u loc g t
       (calculate_distance (LocationUpdate.latitude loc)
          (LocationUpdate.longitude loc) (Geofence.latitude g)
          (Geofence.longitude g))].
Proof.
  intros Hz Hq Hin Hd. unfold emitted.
  rewrite (check_geofences_single now u loc db g recent inside Hz Hq Hin), Hd.
  reflexivity.
Qed.

Lemma near_home_emits_exit : emits 60 alice near_home db_entered 10 EXIT.
Proof.
  exists (event_of 60 near_home home EXIT).
  rewrite (emitted_single 60 alice near_home db_entered home
             (Some (event_of 0 at_home home ENTER)) false EXIT
             eq_refl eq_refl outside_near_home eq_refl).
  split; [left; reflexivity | split; reflexivity].
Qed.

Lemma at_home_emits_enter_again : emits 400 alice at_home db_entered 10 ENTER.
Proof.
  exists (event_of 400 at_home home ENTER).
  rewrite (emitted_single 400 alice at_home db_entered home None true ENTER
             eq_refl eq_refl (inside_at_centre 0) eq_refl).
  split; [left; reflexivity | split; reflexivity].
Qed.

(** *** C9 *)

Lemma exit_only_after_recent_enter_witness :
  (exists r,
      In r (geofence_events db_entered) /\ of_pair alice 10 r
      /\ 60 - timedelta_minutes 5 <= GeofenceEvent.created_at r
      /\ GeofenceEvent.event_type r = ENTER)
  /\ ~ emits 0 alice near_home db_home 10 EXIT
  /\ ~ emits 400 alice near_home db_entered 10 EXIT.
Proof.
  split; [|split].
  - apply (proj1 (exit_only_after_recent_enter 60 alice near_home db_entered
                    10)).
    exact near_home_emits_exit.
  - apply (proj1 (proj2 (exit_only_after_recent_enter 0 alice near_home
                           db_home 10))).
    intros r [].
  - apply (proj2 (proj2 (exit_only_after_recent_enter 400 alice near_home
                           db_entered 10))).
    intros r [Hr | []] _. subst r. reflexivity.
Defined.

(** *** C6 and C10 *)

Lemma is_point_in_circle_spec_witness :
  is_point_in_circle 0 0 0 0 150 = true
  /\ is_point_in_circle 0 (9 / 6371) 0 0 (50 * PI) = true
  /\ is_point_in_circle 0 (9 / 6371) 0 0 150 = false.
Proof.
  split; [|split].
  - apply (proj1 (is_point_in_circle_spec 0 0 0 0 150)).
    rewrite calculate_distance_same. lra.
  - apply (proj1 (proj2 (is_point_in_circle_spec 0 (9 / 6371) 0 0
                           (50 * PI)))).
    exact distance_50_PI.
  - apply (proj2 (proj2 (is_point_in_circle_spec 0 (9 / 6371) 0 0 150))).
    rewrite distance_50_PI. apply distance_50_PI_bounds.
Defined.

Lemma foreign_geofence_not_found_witness :
  get_geofence 30 alice db_bob
  = {| response := Error 404 "Geofence not found"%string;
       db_after := db_bob; published := [] |}
  /\ update_geofence 7 30 rename alice db_bob
     = {| response := Error 404 "Geofence not found"%string;
          db_after := db_bob; published := [] |}
  /\ delete_geofence 7 30 alice db_bob
     = {| response := Error 404 "Geofence not found"%string;
          db_after := db_bob; published := [] |}.
Proof.
  apply (foreign_geofence_not_found 7 30 rename alice db_bob).
  intros g [Hg | []] _. subst g. discriminate.
Defined.

End Scenarios.

(** ** Further properties of update_location *)

Section Evaluation.
Import Location Router Spec Views Scenario.
Local Open Scope Z_scope.

Local Abbreviation sample_distance location_data geofence :=
  (calculate_distance
     (LocationUpdate.latitude location_data)
     (LocationUpdate.longitude location_data)
     (Geofence.latitude geofence)
     (Geofence.longitude geofence)).

(** The session after the loop extends the session before it: by at most one
    event per zone, each for the zone it was created for, and by one message
    per event. *)
Lemma for_each_extends (now : datetime) (u : User.t) (loc : LocationUpdate.t)
    (db : Database) (zones : list Geofence.t) :
  forall (s s' : Session) (res : PyException + unit),
    for_each (check_geofence now u loc db) zones s = (s', res) ->
    exists new_events new_messages,
      pending s' = pending s ++ new_events
      /\ outbox s' = outbox s ++ new_messages
      /\ map transition_key new_messages = map event_key new_events
      /\ (List.length new_events <= List.length zones)%nat
      /\ (forall e, In e new_events ->
            In (GeofenceEvent.geofence_id e) (map Geofence.id zones))
      /\ (NoDup (map Geofence.id zones) ->
          NoDup (map GeofenceEvent.geofence_id new_events)).
Proof.
  induction zones as [|g zones IH]; intros s s' res Hrun.
  - simpl in Hrun. unfold ret in Hrun. inversion Hrun; subst.
    exists [], []. rewrite !app_nil_r. simpl.
    repeat split; auto; try contradiction; try (intros _; constructor).
  - simpl in Hrun. unfold bind in Hrun. rewrite check_geofence_eq in Hrun.
    destruct (scalar_one_or_none (recent_events now db g u))
      as [err|recent] eqn:Hq.
    + inversion Hrun; subst. exists [], []. rewrite !app_nil_r. simpl.
      repeat split; auto; try lia; try contradiction;
        try (intros _; constructor).
    + destruct (decide_event
                  (Rleb (sample_distance loc g) (Geofence.radius_meters g))
                  g recent) as [t|] eqn:Hd.
      * destruct (IH _ _ _ Hrun)
          as [evs [msgs [Hp [Ho [Hk [Hlen [Hids Hnodup]]]]]]].
        simpl in Hp, Ho.
        exists (new_geofence_event now u loc g t (sample_distance loc g)
                  :: evs),
               (transition_message now u loc g t (sample_distance loc g)
                  :: msgs).
        rewrite <- !app_assoc in Hp, Ho. simpl in Hp, Ho.
        repeat split; auto.
        -- simpl. rewrite Hk. reflexivity.
        -- simpl. lia.
        -- intros e [He | He].
           ++ subst e. left. reflexivity.
           ++ right. apply Hids. exact He.
        -- intros Hnd. simpl in Hnd. inversion Hnd as [|x l Hnotin Hnd']; subst.
           simpl. constructor.
           ++ intros Hin. apply in_map_iff in Hin.
              destruct Hin as [e [He1 He2]].
              apply Hnotin. rewrite <- He1. apply Hids. exact He2.
           ++ apply Hnodup. exact Hnd'.
      * destruct (IH _ _ _ Hrun)
          as [evs [msgs [Hp [Ho [Hk [Hlen [Hids Hnodup]]]]]]].
        exists evs, msgs. repeat split; auto.
        -- simpl. lia.
        -- intros e He. right. apply Hids. exact He.
        -- intros Hnd. simpl in Hnd. inversion Hnd; subst. auto.
Qed.

(** The events and the messages of a whole request. *)
Lemma check_geofences_extends (now : datetime) (u : User.t)
    (loc : LocationUpdate.t) (db : Database) :
  exists s res,
    check_geofences now u loc db = (s, res)
    /\ pending s = emitted now u loc db
    /\ map transition_key (outbox s) = map event_key (pending s)
    /\ (List.length (pending s)
        <= List.length (active_geofences db u))%nat
    /\ (NoDup (map Geofence.id (active_geofences db u)) ->
        NoDup (map GeofenceEvent.geofence_id (pending s))).
Proof.
  unfold emitted.
  destruct (check_geofences now u loc db) as [s res] eqn:Hrun.
  exists s, res. split; [reflexivity|]. split; [reflexivity|].
  unfold check_geofences in Hrun.
  destruct (for_each_extends _ _ _ _ _ _ _ _ Hrun)
    as [evs [msgs [Hp [Ho [Hk [Hlen [_ Hnodup]]]]]]].
  simpl in Hp, Ho. rewrite Hp, Ho. auto.
Qed.

(** X3: one sample yields at most one event per geofence.  The number of
    emitted events is at most the number of active geofences of the user,
    and, the keys of those geofences being distinct, no two emitted events
    name the same geofence. *)
Theorem at_most_one_event_per_geofence (now : datetime) (u : User.t)
    (loc : LocationUpdate.t) (db : Database) :
  (List.length (emitted now u loc db)
   <= List.length (active_geofences db u))%nat
  /\ (NoDup (map Geofence.id (active_geofences db u)) ->
      NoDup (map GeofenceEvent.geofence_id (emitted now u loc db))).
Proof.
  destruct (check_geofences_extends now u loc db)
    as [s [res [_ [Hem [_ [Hlen Hnodup]]]]]].
  rewrite <- Hem. auto.
Qed.

(** X4: the triggers and the geometry decide the event type.  An ENTER is
    emitted only for a geofence whose enter trigger is set and whose centre
    is at most its radius away from the sample; an EXIT only for a geofence
    whose exit trigger is set and whose centre is further than its radius
    from the sample. *)
Theorem event_type_follows_trigger_and_geometry (now : datetime)
    (u : User.t) (loc : LocationUpdate.t) (db : Database) (gid : UUID) :
  (emits now u loc db gid ENTER ->
   exists g, In g (active_geofences db u) /\ Geofence.id g = gid
             /\ Geofence.notify_on_enter g = true
             /\ (sample_distance loc g <= Geofence.radius_meters g)%R)
  /\ (emits now u loc db gid EXIT ->
      exists g, In g (active_geofences db u) /\ Geofence.id g = gid
                /\ Geofence.notify_on_exit g = true
                /\ (Geofence.radius_meters g < sample_distance loc g)%R).
Proof.
  split; intros Hem;
    destruct (emits_decided _ _ _ _ _ _ Hem) as [g [recent [Hg [Hid [_ Hd]]]]];
    apply decide_event_cases in Hd;
    exists g.
  - destruct Hd as [[_ [Hin [Hflag _]]] | [Ht _]]; [|discriminate].
    apply Rleb_true_iff in Hin. auto.
  - destruct Hd as [[Ht _] | [_ [Hin [Hflag _]]]]; [discriminate|].
    apply Rleb_false_iff in Hin. auto.
Qed.

(** X6: for a user without an active geofence of their own (no geofence, or
    only inactive ones or those of other users) a location update answers
    200, stores nothing and publishes nothing. *)
Theorem update_location_without_active_geofence (now : datetime)
    (u : User.t) (loc : LocationUpdate.t) (db : Database) :
  (forall g, In g (geofences db) ->
             Geofence.user_id g <> User.id u \/ Geofence.is_active g = false) ->
  update_location now u loc db
  = {| response := Ok 200 "Location updated successfully"%string;
       db_after := db;
       published := [] |}.
Proof.
  intros Hnone.
  assert (Hz : active_geofences db u = []).
  { unfold active_geofences.
    induction (geofences db) as [|g gs IH]; simpl; [reflexivity|].
    destruct (Hnone g (or_introl eq_refl)) as [Hown | Hact].
    - apply Z.eqb_neq in Hown. rewrite Hown. simpl.
      apply IH. intros g' Hg'. apply Hnone. right. exact Hg'.
    - rewrite Hact, andb_false_r.
      apply IH. intros g' Hg'. apply Hnone. right. exact Hg'. }
  unfold update_location, check_geofences. rewrite Hz. simpl.
  rewrite commit_empty. reflexivity.
Qed.

End Evaluation.

(** ** Further properties of the management handlers *)

Section Management.
Import Router Views.
Local Open Scope Z_scope.

(** The keys of the stored geofences are distinct (the primary key). *)
Local Abbreviation distinct_keys db := (NoDup (map Geofence.id (geofences db))).

Lemma owned_filter_unique (gs : list Geofence.t) (g : Geofence.t)
    (u : User.t) :
  NoDup (map Geofence.id gs) -> In g gs ->
  Geofence.user_id g = User.id u ->
  filter
    (fun x => (Geofence.id x =? Geofence.id g)
              && (Geofence.user_id x =? User.id u)) gs
  = [g].
Proof.
  induction gs as [|x gs IH]; intros Hnd Hin Hown; [destruct Hin|].
  simpl in Hnd. inversion Hnd as [|y l Hnotin Hnd']; subst.
  simpl. destruct Hin as [Heq | Hin].
  - subst x. rewrite Z.eqb_refl.
    apply Z.eqb_eq in Hown. rewrite Hown. simpl. f_equal.
    clear IH Hnd. induction gs as [|y gs IH]; simpl; [reflexivity|].
    destruct (Geofence.id y =? Geofence.id g) eqn:Hy; simpl.
    + apply Z.eqb_eq in Hy. exfalso. apply Hnotin. left. exact Hy.
    + apply IH.
      * intros H. apply Hnotin. right. exact H.
      * inversion Hnd'; assumption.
  - destruct (Geofence.id x =? Geofence.id g) eqn:Hx; simpl.
    + apply Z.eqb_eq in Hx. exfalso. apply Hnotin. rewrite Hx.
      apply in_map. exact Hin.
    + apply IH; assumption.
Qed.

(** With distinct keys, the owner's query finds the geofence. *)
Lemma select_owned_found (db : Database) (g : Geofence.t) (u : User.t) :
  distinct_keys db -> In g (geofences db) ->
  Geofence.user_id g = User.id u ->
  select_owned db (Geofence.id g) u = inr (Some g).
Proof.
  intros Hnd Hin Hown. unfold select_owned.
  rewrite (owned_filter_unique _ g u Hnd Hin Hown). reflexivity.
Qed.

Lemma filter_key_absent (gs : list Geofence.t) (gid : UUID)
    (p : Geofence.t -> bool) :
  (forall g, In g gs -> Geofence.id g <> gid) ->
  filter (fun g => (Geofence.id g =? gid) && p g) gs = [].
Proof.
  induction gs as [|g gs IH]; intros Habs; simpl; [reflexivity|].
  assert (Hg : (Geofence.id g =? gid) = false).
  { apply Z.eqb_neq. apply Habs. left. reflexivity. }
  rewrite Hg. simpl. apply IH. intros g' Hg'. apply Habs. right. exact Hg'.
Qed.

Lemma select_owned_absent (db : Database) (gid : UUID) (u : User.t) :
  (forall g, In g (geofences db) -> Geofence.id g <> gid) ->
  select_owned db gid u = inr None.
Proof.
  intros Habs. unfold select_owned.
  rewrite (filter_key_absent _ gid
             (fun g => Geofence.user_id g =? User.id u) Habs).
  reflexivity.
Qed.

(** X8: deleting a geofence of one's own answers 204, removes the geofence
    and all the events stored for it, leaves every other geofence and event
    in place, and makes a later read of the key answer 404. *)
Theorem delete_geofence_effect (now : datetime) (g : Geofence.t) (u : User.t)
    (db : Database) :
  distinct_keys db -> In g (geofences db) ->
  Geofence.user_id g = User.id u ->
  let out := delete_geofence now (Geofence.id g) u db in
  response out = Ok 204 tt
  /\ (forall x, In x (geofences (db_after out)) <->
                In x (geofences db) /\ Geofence.id x <> Geofence.id g)
  /\ (forall e, In e (geofence_events (db_after out)) <->
                In e (geofence_events db)
                /\ GeofenceEvent.geofence_id e <> Geofence.id g)
  /\ response (get_geofence (Geofence.id g) u (db_after out))
     = Error 404 "Geofence not found"%string.
Proof.
  intros Hnd Hin Hown out. unfold out, delete_geofence.
  rewrite (select_owned_found db g u Hnd Hin Hown). simpl.
  split; [reflexivity|].
  assert (Hgs : forall x,
    In x (filter (fun x => negb (Geofence.id x =? Geofence.id g))
            (geofences db))
    <-> In x (geofences db) /\ Geofence.id x <> Geofence.id g).
  { intros x. rewrite filter_In, negb_true_iff, Z.eqb_neq. tauto. }
  split; [exact Hgs|]. split.
  - intros e. rewrite filter_In, negb_true_iff, Z.eqb_neq. tauto.
  - unfold get_geofence.
    rewrite select_owned_absent; [reflexivity|].
    simpl. intros x Hx. apply Hgs in Hx. tauto.
Qed.

Lemma active_geofences_same_user (db : Database) (u w : User.t) :
  User.id w = User.id u -> active_geofences db w = active_geofences db u.
Proof.
  intros Heq. unfold active_geofences. rewrite Heq. reflexivity.
Qed.

Lemma create_geofence_keeps_cap (now : datetime) (new_id : UUID)
    (location_info : option LocationInfo) (geofence_data : GeofenceCreate.t)
    (u w : User.t) (db : Database) :
  (List.length (active_geofences db w) <= 10)%nat ->
  (List.length
     (active_geofences
        (db_after
           (create_geofence now new_id location_info geofence_data u db)) w)
   <= 10)%nat.
Proof.
  intros Hcap. unfold create_geofence.
  destruct (10 <=? Z.of_nat (List.length (active_geofences db u))) eqn:Hc;
    simpl; [exact Hcap|].
  apply Z.leb_gt in Hc.
  unfold active_geofences at 1. simpl. rewrite filter_app, length_app.
  fold (active_geofences db w). simpl.
  destruct (User.id u =? User.id w) eqn:Huw; simpl.
  - apply Z.eqb_eq in Huw.
    rewrite (active_geofences_same_user db u w (eq_sym Huw)) in *.
    destruct (GeofenceCreate.is_active geofence_data); simpl; lia.
  - lia.
Qed.

(** X11: creation keeps the cap.  If no user has more than ten active
    geofences, then after any sequence of creation requests, by any users,
    no user has more than ten. *)
Theorem create_all_keeps_cap (now : datetime)
    (requests : list (User.t * UUID * GeofenceCreate.t)) (db : Database) :
  (forall w, (List.length (active_geofences db w) <= 10)%nat) ->
  forall w,
    (List.length (active_geofences (create_all now requests db) w)
     <= 10)%nat.
Proof.
  revert db. induction requests as [|[[u new_id] geofence_data] rest IH];
    intros db Hcap w.
  - apply Hcap.
  - simpl. apply IH. intros w'. apply create_geofence_keeps_cap. apply Hcap.
Qed.

End Management.

(** ** Further properties of the geometry *)

Section MoreGeometry.
Import Location Geodesy.
Local Open Scope R_scope.

Lemma float_mod_range (x m : R) : 0 < m -> 0 <= float_mod x m < m.
Proof.
  intros Hm. unfold float_mod.
  assert (Hfp := base_fp (x / m)). unfold frac_part in Hfp.
  destruct Hfp as [Hlo Hhi].
  assert (Hx : x = m * (x / m)) by (field; lra).
  split; nra.
Qed.

(** X18: the bearing is normalised: for all coordinates it lies in the
    half-open range from 0 to 360 degrees. *)
Theorem calculate_bearing_range (lat1 lon1 lat2 lon2 : R) :
  0 <= calculate_bearing lat1 lon1 lat2 lon2 < 360.
Proof.
  unfold calculate_bearing. apply float_mod_range. lra.
Qed.

End MoreGeometry.

(** ** The further properties on concrete stores *)

Section MoreScenarios.
Import Location Geodesy Router Spec Views Scenario Accounts.
Local Open Scope Z_scope.

Lemma db_full_count (w : User.t) :
  (List.length (active_geofences db_full w) <= 10)%nat.
Proof.
  unfold active_geofences.
  apply (Nat.le_trans _ (List.length (geofences db_full))).
  - apply List.filter_length_le.
  - apply le_n.
Qed.

Lemma at_most_one_event_per_geofence_witness :
  (List.length (emitted 120%Z alice at_work db_two_zones)
   <= List.length (active_geofences db_two_zones alice))%nat
  /\ NoDup
       (map GeofenceEvent.geofence_id (emitted 120 alice at_work db_two_zones)).
Proof.
  destruct (at_most_one_event_per_geofence 120 alice at_work db_two_zones)
    as [Hlen Hnodup].
  split; [exact Hlen|]. apply Hnodup.
  change (map Geofence.id (active_geofences db_two_zones alice))
    with [11; 10].
  repeat (constructor; [simpl; intuition discriminate|]). constructor.
Defined.

Lemma event_type_follows_trigger_and_geometry_witness :
  (exists g, In g (active_geofences db_entered alice) /\ Geofence.id g = 10
             /\ Geofence.notify_on_enter g = true
             /\ (calculate_distance (LocationUpdate.latitude at_home)
                   (LocationUpdate.longitude at_home) (Geofence.latitude g)
                   (Geofence.longitude g)
                 <= Geofence.radius_meters g)%R)
  /\ (exists g, In g (active_geofences db_entered alice)
                /\ Geofence.id g = 10
                /\ Geofence.notify_on_exit g = true
                /\ (Geofence.radius_meters g
                    < calculate_distance (LocationUpdate.latitude near_home)
                        (LocationUpdate.longitude near_home)
                        (Geofence.latitude g) (Geofence.longitude g))%R).
Proof.
  split.
  - apply (proj1 (event_type_follows_trigger_and_geometry 400 alice at_home
                    db_entered 10)).
    exact at_home_emits_enter_again.
  - apply (proj2 (event_type_follows_trigger_and_geometry 60 alice near_home
                    db_entered 10)).
    exact near_home_emits_exit.
Defined.

Lemma update_location_without_active_geofence_witness :
  update_location 0 bob at_home db_home
  = {| response := Ok 200 "Location updated successfully"%string;
       db_after := db_home;
       published := [] |}.
Proof.
  apply (update_location_without_active_geofence 0 bob at_home db_home).
  intros g [Hg | []]. subst g. left. discriminate.
Defined.

Lemma delete_geofence_effect_witness :
  response (delete_geofence 5 10 alice db_entered) = Ok 204 tt
  /\ (forall x,
        In x (geofences (db_after (delete_geofence 5 10 alice db_entered)))
        <-> In x (geofences db_entered) /\ Geofence.id x <> 10)
  /\ (forall e,
        In e (geofence_events
                (db_after (delete_geofence 5 10 alice db_entered)))
        <-> In e (geofence_events db_entered)
            /\ GeofenceEvent.geofence_id e <> 10)
  /\ response
       (get_geofence 10 alice
          (db_after (delete_geofence 5 10 alice db_entered)))
     = Error 404 "Geofence not found"%string.
Proof.
  apply (delete_geofence_effect 5 home alice db_entered).
  - repeat constructor. intros [].
  - left. reflexivity.
  - reflexivity.
Defined.

Lemma create_all_keeps_cap_witness :
  (List.length (active_geofences (create_all 5%Z creations db_full) alice)
   <= 10)%nat
  /\ (List.length (active_geofences (create_all 5%Z creations db_full) bob)
      <= 10)%nat.
Proof.
  split; apply (create_all_keeps_cap 5 creations db_full db_full_count).
Defined.

End MoreScenarios.

(** ** The handlers on the request classes of schemas.py *)

Section Requests.
Import Location Router Trace.
Local Open Scope string_scope.
Local Open Scope list_scope.
Local Open Scope Z_scope.

Local Abbreviation sample_distance_of location_data geofence :=
  (calculate_distance
     (Schemas.LocationUpdate.latitude location_data)
     (Schemas.LocationUpdate.longitude location_data)
     (Geofence.latitude geofence)
     (Geofence.longitude geofence)).

Local Abbreviation no_device_info :=
  (Endpoint.AttributeError "LocationUpdate" "device_info").

Local Abbreviation updated db :=
  {| response := Ok 200 "Location updated successfully";
     db_after := db;
     published := [] |}.

(** *** The loop body *)

(** The loop body never reaches [db.add]: it leaves the session as it found
    it, and raises as soon as an event is decided. *)
Lemma check_geofence_result (now : datetime) (u : User.t)
    (loc : Schemas.LocationUpdate.t) (db : Database) (g : Geofence.t)
    (s : Session) :
  Endpoint.check_geofence now u loc db g s
  = (s,
     match scalar_one_or_none (recent_events now db g u) with
     | inl e => inl (Endpoint.FromSession e)
     | inr recent =>
         match
           decide_event
             (Rleb (sample_distance_of loc g) (Geofence.radius_meters g))
             g recent
         with
         | Some _ => inl no_device_info
         | None => inr tt
         end
     end).
Proof.
  unfold Endpoint.check_geofence, Endpoint.bind, Endpoint.lift.
  destruct (scalar_one_or_none (recent_events now db g u)) as [e|recent].
  - reflexivity.
  - destruct (decide_event _ g recent); reflexivity.
Qed.

Lemma check_geofence_any_session (now : datetime) (u : User.t)
    (loc : Schemas.LocationUpdate.t) (db : Database) (g : Geofence.t)
    (s : Session) :
  Endpoint.check_geofence now u loc db g s
  = (s, snd (Endpoint.check_geofence now u loc db g empty_session)).
Proof.
  rewrite (check_geofence_result now u loc db g s).
  rewrite (check_geofence_result now u loc db g empty_session).
  reflexivity.
Qed.

(** The evaluation of a zone raises [AttributeError] exactly when the query
    for the recent event returns and an event is decided. *)
Lemma raises_when_event_decided (now : datetime) (u : User.t)
    (loc : Schemas.LocationUpdate.t) (db : Database) (g : Geofence.t) :
  raises now u loc db g no_device_info
  <-> exists recent event_type,
        scalar_one_or_none (recent_events now db g u) = inr recent
        /\ decide_event
             (Rleb (sample_distance_of loc g) (Geofence.radius_meters g))
             g recent
           = Some event_type.
Proof.
  unfold raises. rewrite check_geofence_result. simpl.
  destruct (scalar_one_or_none (recent_events now db g u)) as [e|recent].
  - split; [discriminate | intros (r & t & H & _); discriminate].
  - destruct (decide_event _ g recent) as [t|] eqn:Hd.
    + split; [intros _; exists recent, t; split; [reflexivity | exact Hd]
             | reflexivity].
    + split; [discriminate | ].
      intros (r & t & Hr & Ht). inversion Hr; subst r.
      rewrite Hd in Ht. discriminate.
Qed.

(** The evaluation of a zone completes exactly when the query for the recent
    event returns and no event is decided. *)
Lemma completes_when_nothing_decided (now : datetime) (u : User.t)
    (loc : Schemas.LocationUpdate.t) (db : Database) (g : Geofence.t) :
  completes now u loc db g
  <-> exists recent,
        scalar_one_or_none (recent_events now db g u) = inr recent
        /\ decide_event
             (Rleb (sample_distance_of loc g) (Geofence.radius_meters g))
             g recent
           = None.
Proof.
  unfold completes. rewrite check_geofence_result. simpl.
  destruct (scalar_one_or_none (recent_events now db g u)) as [e|recent].
  - split; [discriminate | intros (r & H & _); discriminate].
  - destruct (decide_event _ g recent) as [t|] eqn:Hd.
    + split; [discriminate | ].
      intros (r & Hr & Ht). inversion Hr; subst r.
      rewrite Hd in Ht. discriminate.
    + split; [intros _; exists recent; split; [reflexivity | exact Hd]
             | reflexivity].
Qed.

(** *** The loop *)

Lemma for_each_completes (now : datetime) (u : User.t)
    (loc : Schemas.LocationUpdate.t) (db : Database)
    (zones : list Geofence.t) (s : Session) :
  (forall z, In z zones -> completes now u loc db z) ->
  Endpoint.for_each (Endpoint.check_geofence now u loc db) zones s
  = (s, inr tt).
Proof.
  induction zones as [|z zones IH]; intros Hall.
  - reflexivity.
  - simpl. unfold Endpoint.bind.
    rewrite check_geofence_any_session.
    rewrite (Hall z (or_introl eq_refl)).
    apply IH. intros z' Hz'. apply Hall. right. exact Hz'.
Qed.

(** The loop stops at the first zone whose evaluation raises; the zones after
    it are not evaluated. *)
Lemma for_each_stops (now : datetime) (u : User.t)
    (loc : Schemas.LocationUpdate.t) (db : Database)
    (before after : list Geofence.t) (g : Geofence.t) (e : Endpoint.Raised)
    (s : Session) :
  (forall z, In z before -> completes now u loc db z) ->
  raises now u loc db g e ->
  Endpoint.for_each (Endpoint.check_geofence now u loc db)
    (before ++ g :: after) s
  = (s, inl e).
Proof.
  induction before as [|z before IH]; intros Hall Hg.
  - simpl. unfold Endpoint.bind.
    rewrite check_geofence_any_session. rewrite Hg. reflexivity.
  - simpl. unfold Endpoint.bind.
    rewrite check_geofence_any_session.
    rewrite (Hall z (or_introl eq_refl)).
    apply IH; [ | exact Hg].
    intros z' Hz'. apply Hall. right. exact Hz'.
Qed.

(** Either every zone completes, or there is a first zone that raises. *)
Lemma zones_complete_or_raise (now : datetime) (u : User.t)
    (loc : Schemas.LocationUpdate.t) (db : Database)
    (zones : list Geofence.t) :
  (forall z, In z zones -> completes now u loc db z)
  \/ (exists before g after e,
         zones = before ++ g :: after
         /\ (forall z, In z before -> completes now u loc db z)
         /\ raises now u loc db g e).
Proof.
  induction zones as [|z zones IH].
  - left. intros z [].
  - destruct (snd (Endpoint.check_geofence now u loc db z empty_session))
      as [e|[]] eqn:Hz.
    + right. exists [], z, zones, e. repeat split.
      * intros z' [].
      * exact Hz.
    + destruct IH as [Hall | (before & g & after & e & Heq & Hb & Hg)].
      * left. intros z' [<- | Hz']; [exact Hz | exact (Hall z' Hz')].
      * right. exists (z :: before), g, after, e. repeat split.
        -- simpl. rewrite Heq. reflexivity.
        -- intros z' [<- | Hz']; [exact Hz | exact (Hb z' Hz')].
        -- exact Hg.
Qed.

(** *** update_location *)

Lemma update_location_completes (now : datetime) (u : User.t)
    (loc : Schemas.LocationUpdate.t) (db : Database) :
  (forall z, In z (active_geofences db u) -> completes now u loc db z) ->
  Endpoint.update_location now u loc db = updated db.
Proof.
  intros Hall. unfold Endpoint.update_location, Endpoint.check_geofences.
  rewrite (for_each_completes now u loc db _ empty_session Hall).
  rewrite commit_empty. reflexivity.
Qed.

Lemma update_location_stops (now : datetime) (u : User.t)
    (loc : Schemas.LocationUpdate.t) (db : Database)
    (before after : list Geofence.t) (g : Geofence.t)
    (e : Endpoint.Raised) :
  active_geofences db u = before ++ g :: after ->
  (forall z, In z before -> completes now u loc db z) ->
  raises now u loc db g e ->
  Endpoint.update_location now u loc db = failed db e.
Proof.
  intros Hz Hall Hg. unfold Endpoint.update_location, Endpoint.check_geofences.
  rewrite Hz.
  rewrite (for_each_stops now u loc db before after g e empty_session Hall Hg).
  reflexivity.
Qed.

(** No request stores a row or publishes a message. *)
Lemma update_location_keeps_store (now : datetime) (u : User.t)
    (loc : Schemas.LocationUpdate.t) (db : Database) :
  db_after (Endpoint.update_location now u loc db) = db
  /\ published (Endpoint.update_location now u loc db) = [].
Proof.
  destruct (zones_complete_or_raise now u loc db (active_geofences db u))
    as [Hall | (before & g & after & e & Heq & Hb & Hg)].
  - rewrite (update_location_completes now u loc db Hall). split; reflexivity.
  - rewrite (update_location_stops now u loc db before after g e Heq Hb Hg).
    split; reflexivity.
Qed.

Lemma no_new_events {A : Type} (db : Database) (out : Outcome A) :
  db_after out = db -> new_events db out = [].
Proof.
  intros H. unfold new_events. rewrite H. apply skipn_all.
Qed.

Lemma update_location_emits_nothing (now : datetime) (u : User.t)
    (loc : Schemas.LocationUpdate.t) (db : Database) (gid : UUID)
    (t : EventType) :
  ~ emits_event db (Endpoint.update_location now u loc db) gid t.
Proof.
  destruct (update_location_keeps_store now u loc db) as [Hdb Hpub].
  intros [(e & He & _) | (m & Hm & _)].
  - rewrite (no_new_events db _ Hdb) in He. exact He.
  - rewrite Hpub in Hm. exact Hm.
Qed.

(** The request against a single active zone. *)
Lemma update_location_one_zone (now : datetime) (u : User.t)
    (loc : Schemas.LocationUpdate.t) (db : Database) (g : Geofence.t)
    (recent : option GeofenceEvent.t) (inside : bool) :
  active_geofences db u = [g] ->
  scalar_one_or_none (recent_events now db g u) = inr recent ->
  Rleb (sample_distance_of loc g) (Geofence.radius_meters g) = inside ->
  Endpoint.update_location now u loc db
  = match decide_event inside g recent with
    | Some _ => failed db no_device_info
    | None => updated db
    end.
Proof.
  intros Hz Hq Hin.
  destruct (decide_event inside g recent) as [t|] eqn:Hd.
  - apply (update_location_stops now u loc db [] [] g no_device_info Hz).
    + intros z [].
    + apply raises_when_event_decided. exists recent, t.
      rewrite Hin. split; assumption.
  - apply update_location_completes. rewrite Hz.
    intros z [<- | []]. apply completes_when_nothing_decided.
    exists recent. rewrite Hin. split; assumption.
Qed.

(** With its exit trigger set, a zone whose recent event is an ENTER decides
    an EXIT for every sample further than the radius, whether or not the
    sample is within 50 m of it; the request is then answered with status
    500. *)
Lemma exit_decided_beyond_radius (now : datetime) (u : User.t)
    (loc : Schemas.LocationUpdate.t) (db : Database) (g : Geofence.t)
    (r : GeofenceEvent.t) :
  recent_events now db g u = [r] ->
  GeofenceEvent.event_type r = ENTER ->
  Geofence.notify_on_exit g = true ->
  (Geofence.radius_meters g < sample_distance_of loc g)%R ->
  raises now u loc db g no_device_info.
Proof.
  intros Hq Hr Hx Hd. apply raises_when_event_decided.
  exists (Some r), EXIT. rewrite Hq. split; [reflexivity | ].
  apply Rleb_false_iff in Hd. rewrite Hd.
  unfold decide_event. simpl. rewrite Hx, Hr. reflexivity.
Qed.

(** *** The claims *)



(** C4, as the code has it: whatever the dwell trigger and the dwell
    threshold of the zone, the decision of the loop body is ENTER, EXIT or
    none, and no location update emits a DWELL event. *)
Theorem dwell_never_emitted (now : datetime) (u : User.t)
    (loc : Schemas.LocationUpdate.t) (db : Database) (g : Geofence.t) :
  (forall inside recent event_type,
      decide_event inside g recent = Some event_type ->
      event_type = ENTER \/ event_type = EXIT)
  /\ ~ emits_event db (Endpoint.update_location now u loc db)
         (Geofence.id g) DWELL.
Proof.
  split.
  - intros inside recent t. unfold decide_event.
    destruct (inside && Geofence.notify_on_enter g).
    + destruct recent as [r|].
      * destruct (EventType_eqb (GeofenceEvent.event_type r) EXIT);
          [intros H; inversion H; left; reflexivity | discriminate].
      * intros H; inversion H; left; reflexivity.
    + destruct (negb inside && Geofence.notify_on_exit g);
        [ | discriminate].
      destruct recent as [r|]; [ | discriminate].
      destruct (EventType_eqb (GeofenceEvent.event_type r) ENTER);
        [intros H; inversion H; right; reflexivity | discriminate].
  - apply update_location_emits_nothing.
Qed.


(** C8: with ten or more active geofences of the user the request is
    answered with status 400 and the store is unchanged; with fewer than ten
    the handler reads [geofence_data.latitude], which [GeofenceCreate] does
    not declare, and answers with status 500: no geofence is stored and none
    is returned. *)
Theorem create_geofence_cap_then_failure
    (geofence_data : Schemas.GeofenceCreate.t) (u : User.t)
    (db : Database) :
  let geofence_count := Z.of_nat (List.length (active_geofences db u)) in
  let out := Endpoint.create_geofence geofence_data u db in
  (10 <= geofence_count ->
   response out = Error 400 "Maximum of 10 active geofences allowed"
   /\ db_after out = db
   /\ published out = [])
  /\ (geofence_count < 10 ->
      response out
      = Error 500
          "Failed to create geofence: 'GeofenceCreate' object has no attribute 'latitude'"
      /\ db_after out = db
      /\ published out = []).
Proof.
  intros geofence_count out. unfold out, Endpoint.create_geofence.
  fold geofence_count.
  split; intros H.
  - destruct (Z.leb_spec 10 geofence_count); [ | lia]. repeat split.
  - destruct (Z.leb_spec 10 geofence_count); [lia | ]. repeat split.
Qed.

(** *** A further property *)


End Requests.

(** ** The requests on concrete zones and samples *)

Section RequestScenarios.
Import Location Router Trace Scenario.
Local Open Scope string_scope.
Local Open Scope list_scope.
Local Open Scope Z_scope.

Local Abbreviation no_such_attribute :=
  (Endpoint.AttributeError "LocationUpdate" "device_info").

Local Abbreviation answered_200 db :=
  {| response := Ok 200 "Location updated successfully";
     db_after := db;
     published := [] |}.


(** An inside sample against [home] with no recent event decides an ENTER,
    and the request fails. *)
Lemma at_home_fails (now : datetime) (sent_at : option datetime) :
  Endpoint.update_location now alice (Samples.at_home sent_at) db_home
  = failed db_home no_such_attribute.
Proof.
  exact (update_location_one_zone now alice (Samples.at_home sent_at) db_home
           home None true eq_refl eq_refl (inside_at_centre 0)).
Qed.

(** An outside sample against [home] with no recent event decides nothing. *)
Lemma near_home_passes (now : datetime) (sent_at : option datetime) :
  Endpoint.update_location now alice (Samples.near_home sent_at) db_home
  = answered_200 db_home.
Proof.
  exact (update_location_one_zone now alice (Samples.near_home sent_at)
           db_home home None false eq_refl eq_refl outside_near_home).
Qed.



(** C2 on the code: one active zone with its enter and exit triggers set and
    no stored event; samples inside, inside again, outside, inside.  Each
    inside sample decides an ENTER and is answered with status 500, the
    outside sample is answered with status 200, and no request stores or
    publishes an event: there is no ENTER and no EXIT. *)
Lemma enter_exit_enter_replay :
  Geofence.notify_on_enter home = true
  /\ Geofence.notify_on_exit home = true
  /\ replay alice
       [(0, Samples.at_home (Some 0));
        (100, Samples.at_home (Some 100));
        (200, Samples.near_home (Some 200));
        (250, Samples.at_home (Some 250))]
       db_home
     = [failed db_home no_such_attribute;
        failed db_home no_such_attribute;
        answered_200 db_home;
        failed db_home no_such_attribute].
Proof.
  split; [reflexivity | split; [reflexivity | ]].
  unfold replay.
  rewrite (at_home_fails 0 (Some 0)). simpl db_after.
  rewrite (at_home_fails 100 (Some 100)). simpl db_after.
  rewrite (near_home_passes 200 (Some 200)). simpl db_after.
  rewrite (at_home_fails 250 (Some 250)).
  reflexivity.
Qed.

(** An inside sample against [lounge] decides nothing: the zone has neither
    its enter nor its exit trigger set. *)
Lemma in_lounge_passes (now : datetime) (sent_at : option datetime) :
  Endpoint.update_location now alice (Samples.at_home sent_at)
    Samples.db_lounge
  = answered_200 Samples.db_lounge.
Proof.
  exact (update_location_one_zone now alice (Samples.at_home sent_at)
           Samples.db_lounge Samples.lounge None true eq_refl eq_refl
           (inside_at_centre 0)).
Qed.

(** C4 fails on the code.  The zone [lounge] has its dwell trigger set and a
    dwell threshold of five minutes; samples inside it at t = 0, 2, 4 and 6
    minutes are each answered with status 200, and none of them, the one at
    six minutes included, stores or publishes an event. *)
Lemma dwell_counterexample :
  Geofence.trigger_on_dwell Samples.lounge = true
  /\ Geofence.dwell_time_minutes Samples.lounge = 5
  /\ Rleb (calculate_distance 0 0 0 0) (Geofence.radius_meters Samples.lounge)
     = true
  /\ replay alice
       [(0, Samples.at_home (Some 0));
        (120, Samples.at_home (Some 120));
        (240, Samples.at_home (Some 240));
        (360, Samples.at_home (Some 360))]
       Samples.db_lounge
     = [answered_200 Samples.db_lounge;
        answered_200 Samples.db_lounge;
        answered_200 Samples.db_lounge;
        answered_200 Samples.db_lounge].
Proof.
  split; [reflexivity | split; [reflexivity | split]].
  - exact (inside_at_centre 0).
  - unfold replay.
    rewrite (in_lounge_passes 0 (Some 0)). simpl db_after.
    rewrite (in_lounge_passes 120 (Some 120)). simpl db_after.
    rewrite (in_lounge_passes 240 (Some 240)). simpl db_after.
    rewrite (in_lounge_passes 360 (Some 360)).
    reflexivity.
Qed.





Lemma create_geofence_cap_then_failure_witness :
  (response (Endpoint.create_geofence Samples.school alice db_full)
   = Error 400 "Maximum of 10 active geofences allowed"
   /\ db_after (Endpoint.create_geofence Samples.school alice db_full)
      = db_full
   /\ published (Endpoint.create_geofence Samples.school alice db_full) = [])
  /\ (response (Endpoint.create_geofence Samples.school alice db_home)
      = Error 500
          "Failed to create geofence: 'GeofenceCreate' object has no attribute 'latitude'"
      /\ db_after (Endpoint.create_geofence Samples.school alice db_home)
         = db_home
      /\ published (Endpoint.create_geofence Samples.school alice db_home)
         = []).
Proof.
  split.
  - apply (proj1 (create_geofence_cap_then_failure Samples.school alice
                    db_full)).
    vm_compute. discriminate.
  - apply (proj2 (create_geofence_cap_then_failure Samples.school alice
                    db_home)).
    vm_compute. reflexivity.
Defined.


End RequestScenarios.
